(** * FightLight: the project-state model and the routes that edit it

    A shallow embedding of [hlc_core/models.py] (the pydantic models
    [TimeRange], [VideoFile], [Highlight], [ProjectState] and the three
    methods of [ProjectState]) and of the [/select] and [/nudge] routes of
    [hlc_ui/app.py], with the properties the specification states about them.

    Python's [float] is IEEE 754 binary64.  It is modelled by the bit-level
    specification [spec_float] of the Standard Library, instantiated at
    precision 53 and maximal exponent 1024, so that additions, subtractions
    and comparisons round and treat NaN, infinities and signed zeros the way
    the interpreter does. *)

From stdpp Require Import gmap strings list.
From Stdlib Require Import ZArith Lia.
From Stdlib Require Import Floats.SpecFloat.

#[local] Set Warnings "-register-all".
#[local] Open Scope Z_scope.

(** ** Python floats *)

Module PyFloat.

Definition prec : Z := 53.
Definition emax : Z := 1024.

Definition float : Type := spec_float.

(** A [spec_float] is a float of the interpreter when its mantissa and
    exponent are in canonical form. *)
Definition valid (x : float) : Prop := valid_binary prec emax x = true.

Definition zero : float := S754_zero false.

(** [float(z)] for an integer literal [z]. *)
Definition of_Z (z : Z) : float := binary_normalize prec emax z 0 false.

Definition add (x y : float) : float := SFadd prec emax x y.
Definition sub (x y : float) : float := SFsub prec emax x y.

(** [x < y], [x <= y], [x > y], [x >= y]: false as soon as one side is NaN. *)
Definition lt (x y : float) : bool := SFltb x y.
Definition le (x y : float) : bool := SFleb x y.
Definition gt (x y : float) : bool := SFltb y x.
Definition ge (x y : float) : bool := SFleb y x.

(** [max(0, x)]: the builtin keeps its first argument unless a later one
    compares strictly greater; the integer [0] it may return is turned into
    [0.0] by the float field that receives it. *)
Definition max0 (x : float) : float := if gt x zero then x else zero.

End PyFloat.

Import PyFloat.

(** ** JSON values

    What [json.load] returns and what [json.dump] and [model_dump] produce:
    [None], booleans, integers, floats, strings, lists and string-keyed
    dictionaries. *)

Inductive json : Type :=
  | JNull
  | JBool (b : bool)
  | JInt (z : Z)
  | JFloat (f : float)
  | JStr (s : string)
  | JList (l : list json)
  | JDict (d : gmap string json).

(** ** Exceptions

    Every failure of a pydantic constructor or of [model_validate] is a
    [ValidationError]; a [ValueError] raised in [model_post_init] is
    reported as one too. *)

Inductive PyError : Type := ValidationError.

Inductive result (A : Type) : Type :=
  | Ok (a : A)
  | Raise (e : PyError).
Arguments Ok {A} a.
Arguments Raise {A} e.

#[export] Instance result_ret : MRet result := fun A a => Ok a.
#[export] Instance result_bind : MBind result := fun A B k m =>
  match m with Ok a => k a | Raise e => Raise e end.
#[export] Instance result_fmap : FMap result := fun A B f m =>
  match m with Ok a => Ok (f a) | Raise e => Raise e end.

(** Validation of the items of a list, left to right; the first failure
    fails the list. *)
Fixpoint each {A B : Type} (v : A -> result B) (l : list A) : result (list B) :=
  match l with
  | [] => Ok []
  | x :: l' => y ← v x; ys ← each v l'; Ok (y :: ys)
  end.

(** ** Pydantic field validators

    [model_validate] runs in pydantic's lax mode: a [float] or [int] field
    also takes some values of other types (an integer for a float, a numeric
    string, ...).  That table belongs to the library, not to this
    repository, so the two scalar coercions are parameters of the model;
    [Native] is all that is asked of them. *)

Module Pydantic.

Record Lax : Type := {
  to_float : json -> option float;
  to_int : json -> option Z;
}.

(** A value that already has the type of the field is taken as it is. *)
Record Native (L : Lax) : Prop := {
  to_float_float : forall f, to_float L (JFloat f) = Some f;
  to_int_int : forall z, to_int L (JInt z) = Some z;
}.

(** Strict mode: no coercion at all. *)
Definition strict : Lax := {|
  to_float j := match j with JFloat f => Some f | _ => None end;
  to_int j := match j with JInt z => Some z | _ => None end;
|}.

Definition validator (A : Type) : Type := json -> result A.

Definition of_option {A : Type} (o : option A) : result A :=
  match o with Some a => Ok a | None => Raise ValidationError end.

Definition float_ (L : Lax) : validator float := fun j => of_option (to_float L j).
Definition int_ (L : Lax) : validator Z := fun j => of_option (to_int L j).

Definition str : validator string := fun j =>
  match j with JStr s => Ok s | _ => Raise ValidationError end.

Definition dict : validator (gmap string json) := fun j =>
  match j with JDict d => Ok d | _ => Raise ValidationError end.

(** [List[A]] *)
Definition list_ {A : Type} (v : validator A) : validator (list A) := fun j =>
  match j with JList l => each v l | _ => Raise ValidationError end.

(** [Optional[A]] *)
Definition optional {A : Type} (v : validator A) : validator (option A) := fun j =>
  match j with JNull => Ok None | _ => Some <$> v j end.

(** A field without default: the key must be present. *)
Definition required {A : Type} (v : validator A)
    (d : gmap string json) (k : string) : result A :=
  match d !! k with
  | Some j => v j
  | None => Raise ValidationError
  end.

(** A field with a default: used, unvalidated, when the key is absent. *)
Definition defaulted {A : Type} (dflt : A) (v : validator A)
    (d : gmap string json) (k : string) : result A :=
  match d !! k with
  | Some j => v j
  | None => Ok dflt
  end.

(** Dumping an optional value. *)
Definition dump_optional {A : Type} (f : A -> json) (o : option A) : json :=
  match o with Some a => f a | None => JNull end.

End Pydantic.

(** ** [class TimeRange(BaseModel)] *)

Module TimeRange.

Record t : Type := mk { start : float; end_ : float }.

(** [TimeRange(start=..., end=...)]: [start] is checked against [ge=0],
    [end] against [gt=0], then [model_post_init] raises when
    [self.end <= self.start].  A bound of a field is a comparison that has
    to hold, so a NaN meets none. *)
Definition new (start end_ : float) : result t :=
  if negb (ge start zero) then Raise ValidationError
  else if negb (gt end_ zero) then Raise ValidationError
  else if le end_ start then Raise ValidationError
  else Ok (mk start end_).

(** The invariant of the specification: [start >= 0] and [end > start]. *)
Definition invariant (r : t) : Prop :=
  ge (start r) zero = true /\ gt (end_ r) (start r) = true.

Definition model_validate (L : Pydantic.Lax) : Pydantic.validator t := fun j =>
  d ← Pydantic.dict j;
  s ← Pydantic.required (Pydantic.float_ L) d "start";
  e ← Pydantic.required (Pydantic.float_ L) d "end";
  new s e.

Definition model_dump (r : t) : json :=
  JDict (<["start" := JFloat (start r)]> (<["end" := JFloat (end_ r)]> ∅)).

End TimeRange.

(** ** [class VideoFile(BaseModel)] *)

Module VideoFile.

Record t : Type := mk {
  path : string;
  duration : option float;
  fps : option float;
  width : option Z;
  height : option Z;
}.

(** [VideoFile(path=..., duration=..., fps=..., width=..., height=...)]:
    the fields carry no constraint. *)
Definition new (path : string) (duration fps : option float)
    (width height : option Z) : result t :=
  Ok (mk path duration fps width height).

Definition model_validate (L : Pydantic.Lax) : Pydantic.validator t := fun j =>
  d ← Pydantic.dict j;
  p ← Pydantic.required Pydantic.str d "path";
  du ← Pydantic.defaulted None (Pydantic.optional (Pydantic.float_ L)) d "duration";
  f ← Pydantic.defaulted None (Pydantic.optional (Pydantic.float_ L)) d "fps";
  w ← Pydantic.defaulted None (Pydantic.optional (Pydantic.int_ L)) d "width";
  h ← Pydantic.defaulted None (Pydantic.optional (Pydantic.int_ L)) d "height";
  new p du f w h.

Definition model_dump (v : t) : json :=
  JDict (<["path" := JStr (path v)]>
        (<["duration" := Pydantic.dump_optional JFloat (duration v)]>
        (<["fps" := Pydantic.dump_optional JFloat (fps v)]>
        (<["width" := Pydantic.dump_optional JInt (width v)]>
        (<["height" := Pydantic.dump_optional JInt (height v)]> ∅))))).

End VideoFile.

(** ** [class Highlight(BaseModel)] *)

Module Highlight.

Record t : Type := mk {
  id : string;
  name : string;
  time_range : TimeRange.t;
  description : option string;
  tags : list string;
}.

(** [highlight.time_range = r] *)
Definition set_time_range (r : TimeRange.t) (h : t) : t :=
  mk (id h) (name h) r (description h) (tags h).

Definition model_validate (L : Pydantic.Lax) : Pydantic.validator t := fun j =>
  d ← Pydantic.dict j;
  i ← Pydantic.required Pydantic.str d "id";
  n ← Pydantic.required Pydantic.str d "name";
  r ← Pydantic.required (TimeRange.model_validate L) d "time_range";
  de ← Pydantic.defaulted None (Pydantic.optional Pydantic.str) d "description";
  ta ← Pydantic.defaulted [] (Pydantic.list_ Pydantic.str) d "tags";
  Ok (mk i n r de ta).

Definition model_dump (h : t) : json :=
  JDict (<["id" := JStr (id h)]>
        (<["name" := JStr (name h)]>
        (<["time_range" := TimeRange.model_dump (time_range h)]>
        (<["description" := Pydantic.dump_optional JStr (description h)]>
        (<["tags" := JList (JStr <$> tags h)]> ∅))))).

End Highlight.

(** ** [class ProjectState(BaseModel)] *)

Module ProjectState.

Record t : Type := mk {
  project_name : string;
  video_file : option VideoFile.t;
  highlights : list Highlight.t;
  selected_highlight_id : option string;
  export_settings : gmap string json;
}.

(** [ProjectState(project_name=name)] *)
Definition new (project_name : string) : t := mk project_name None [] None ∅.

Definition set_highlights (hs : list Highlight.t) (self : t) : t :=
  mk (project_name self) (video_file self) hs (selected_highlight_id self)
    (export_settings self).

(** [self.selected_highlight_id = s] *)
Definition set_selected_highlight_id (s : option string) (self : t) : t :=
  mk (project_name self) (video_file self) (highlights self) s (export_settings self).

(** The scan [for i, highlight in enumerate(self.highlights): if
    highlight.id == highlight_id] shared by the two methods below: the index
    and the element of the first hit. *)
Definition scan (highlight_id : string) (self : t) : option (nat * Highlight.t) :=
  list_find (fun h => Highlight.id h = highlight_id) (highlights self).

(** [get_selected_highlight], with the position of the returned object in
    [self.highlights]: the method hands out that very object, and the routes
    assign to its fields. *)
Definition selected_slot (self : t) : option (nat * Highlight.t) :=
  match selected_highlight_id self with
  | None => None
  | Some sel =>
      if decide (sel = "") then None    (* [not self.selected_highlight_id] *)
      else scan sel self
  end.

Definition get_selected_highlight (self : t) : option Highlight.t :=
  snd <$> selected_slot self.

(** [add_highlight]: [self.highlights.append(highlight)]. *)
Definition add_highlight (highlight : Highlight.t) (self : t) : t :=
  set_highlights (highlights self ++ [highlight]) self.

(** [remove_highlight]: the returned boolean and the object afterwards. *)
Definition remove_highlight (highlight_id : string) (self : t) : bool * t :=
  match scan highlight_id self with
  | Some (i, _) =>
      let self' := set_highlights (delete i (highlights self)) self in
      (true,
       if decide (selected_highlight_id self' = Some highlight_id)
       then set_selected_highlight_id None self'
       else self')
  | None => (false, self)
  end.

Definition model_validate (L : Pydantic.Lax) : Pydantic.validator t := fun j =>
  d ← Pydantic.dict j;
  n ← Pydantic.required Pydantic.str d "project_name";
  v ← Pydantic.defaulted None (Pydantic.optional (VideoFile.model_validate L)) d "video_file";
  hs ← Pydantic.defaulted [] (Pydantic.list_ (Highlight.model_validate L)) d "highlights";
  s ← Pydantic.defaulted None (Pydantic.optional Pydantic.str) d "selected_highlight_id";
  x ← Pydantic.defaulted ∅ Pydantic.dict d "export_settings";
  Ok (mk n v hs s x).

Definition model_dump (self : t) : json :=
  JDict (<["project_name" := JStr (project_name self)]>
        (<["video_file" := Pydantic.dump_optional VideoFile.model_dump (video_file self)]>
        (<["highlights" := JList (Highlight.model_dump <$> highlights self)]>
        (<["selected_highlight_id" := Pydantic.dump_optional JStr (selected_highlight_id self)]>
        (<["export_settings" := JDict (export_settings self)]> ∅))))).

(** The invariants of the specification. *)
Definition ranges_ok (self : t) : Prop :=
  Forall (fun h => TimeRange.invariant (Highlight.time_range h)) (highlights self).

Definition selection_ok (self : t) : Prop :=
  forall sel, selected_highlight_id self = Some sel ->
    length (filter (fun h => Highlight.id h = sel) (highlights self)) = 1%nat.

End ProjectState.

(** ** [hlc_cli/main.py] *)

Module Cli.

(** The duration column of the [highlights] command:
    [highlight.time_range.end - highlight.time_range.start]. *)
Definition duration (r : TimeRange.t) : float :=
  sub (TimeRange.end_ r) (TimeRange.start r).

End Cli.

(** ** [hlc_ui/app.py] *)

Module App.

(** The file [project_state.json]: absent (or not JSON), or a document. *)
Definition Disk : Type := option json.

(** What a route answers: the status code and the fixed part of the
    ["message"] or ["error"] text. *)
Inductive Reply : Type := Reply_ (status : Z) (text : string).

Definition load_project_state (L : Pydantic.Lax) (disk : Disk) :
    option ProjectState.t :=
  match disk with
  | None => None
  | Some data =>
      match ProjectState.model_validate L data with
      | Ok p => Some p
      | Raise _ => None
      end
  end.

(** [save_project_state(state)] leaves [state.model_dump()] in the file.
    The write is taken to succeed: the answers with status 500, which the
    routes send when it does not, are left out. *)
Definition save_project_state (state : ProjectState.t) : Disk :=
  Some (ProjectState.model_dump state).

(** [POST /select] with [highlight_id] the value of that key in the body
    ([None] when the key is absent). *)
Definition select_highlight (L : Pydantic.Lax) (disk : Disk)
    (highlight_id : option string) : Reply * Disk :=
  match highlight_id with
  | None => (Reply_ 400 "highlight_id is required", disk)
  | Some hid =>
      if decide (hid = "") then (Reply_ 400 "highlight_id is required", disk)
      else
        match load_project_state L disk with
        | None => (Reply_ 404 "No project loaded", disk)
        | Some project =>
            if bool_decide (Exists (fun h => Highlight.id h = hid)
                              (ProjectState.highlights project))
            then (Reply_ 200 "Highlight selected",
                  save_project_state (ProjectState.set_selected_highlight_id (Some hid) project))
            else (Reply_ 404 "Highlight not found", disk)
        end
  end.

(** [POST /nudge] with [offset] the value of that key in the body, 1.0
    when the key is absent.  The assignment [selected.time_range = ...]
    changes the highlight inside [project.highlights], which is then
    saved. *)
Definition nudge (L : Pydantic.Lax) (disk : Disk) (offset : option float) :
    Reply * Disk :=
  let offset := default (of_Z 1) offset in
  match load_project_state L disk with
  | None => (Reply_ 404 "No project loaded", disk)
  | Some project =>
      match ProjectState.selected_slot project with
      | None => (Reply_ 400 "No highlight selected", disk)
      | Some (i, selected) =>
          let r := Highlight.time_range selected in
          let new_start := max0 (add (TimeRange.start r) offset) in
          let new_end := add (TimeRange.end_ r) offset in
          match TimeRange.new new_start new_end with
          | Raise _ => (Reply_ 400 "Invalid nudge operation", disk)
          | Ok r' =>
              let hs :=
                <[i := Highlight.set_time_range r' selected]>
                  (ProjectState.highlights project) in
              (Reply_ 200 "Highlight nudged",
               save_project_state (ProjectState.set_highlights hs project))
          end
      end
  end.

End App.

(** ** [hlc_ui/app.py]: the other routes *)

Module Routes.

(** [project.video_file = v] *)
Definition set_video_file (v : option VideoFile.t) (self : ProjectState.t) : ProjectState.t :=
  ProjectState.mk (ProjectState.project_name self) v (ProjectState.highlights self)
    (ProjectState.selected_highlight_id self) (ProjectState.export_settings self).

(** [project = load_project_state()] followed by
    [if not project: project = ProjectState(project_name="New Project")]. *)
Definition load_or_new (L : Pydantic.Lax) (disk : App.Disk) : ProjectState.t :=
  match App.load_project_state L disk with
  | Some project => project
  | None => ProjectState.new "New Project"
  end.

(** [GET /state]: the dump of the stored project, or the 404 answer. *)
Definition get_state (L : Pydantic.Lax) (disk : App.Disk) : App.Reply + json :=
  match App.load_project_state L disk with
  | Some project => inr (ProjectState.model_dump project)
  | None => inl (App.Reply_ 404 "No project state found")
  end.

(** [POST /import/video] with [path] the string under that key in the body.
    [VideoFile(path=video_path)] leaves the four other fields at their
    default. *)
Definition import_video (L : Pydantic.Lax) (disk : App.Disk) (path : option string) :
    App.Reply * App.Disk :=
  match path with
  | None => (App.Reply_ 400 "Video path is required", disk)
  | Some video_path =>
      if decide (video_path = "") then (App.Reply_ 400 "Video path is required", disk)
      else
        let project := load_or_new L disk in
        match VideoFile.new video_path None None None None with
        | Ok v =>
            (App.Reply_ 200 "Video imported successfully",
             App.save_project_state (set_video_file (Some v) project))
        | Raise _ => (App.Reply_ 500 "Internal Server Error", disk)
        end
  end.

(** The loop of [/import/highlights]: each item is validated and added in
    turn; the first invalid one ends the request. *)
Fixpoint import_each (L : Pydantic.Lax) (highlights_data : list json)
    (project : ProjectState.t) : result ProjectState.t :=
  match highlights_data with
  | [] => Ok project
  | highlight_data :: rest =>
      highlight ← Highlight.model_validate L highlight_data;
      import_each L rest (ProjectState.add_highlight highlight project)
  end.

(** [POST /import/highlights] with [highlights_data] the list under the key
    ["highlights"] of the body, [[]] when the key is absent. *)
Definition import_highlights (L : Pydantic.Lax) (disk : App.Disk)
    (highlights_data : option (list json)) : App.Reply * App.Disk :=
  let highlights_data := default [] highlights_data in
  let project := load_or_new L disk in
  match import_each L highlights_data project with
  | Raise _ => (App.Reply_ 400 "Invalid highlight data", disk)
  | Ok project' => (App.Reply_ 200 "Imported highlights", App.save_project_state project')
  end.

(** [data.get(key) is None]: the key is absent or holds [null]. *)
Definition is_None (v : option json) : bool :=
  match v with
  | None | Some JNull => true
  | Some _ => false
  end.

(** [TimeRange(start=start, end=end)] on two values of the request: the
    keyword arguments go through the validators of the fields. *)
Definition TimeRange_of (L : Pydantic.Lax) (start end_ : json) : result TimeRange.t :=
  TimeRange.model_validate L (JDict (<["start" := start]> (<["end" := end_]> ∅))).

(** [POST /update-range] with [start] and [end_] the values of the keys
    ["start"] and ["end"] of the body. *)
Definition update_range (L : Pydantic.Lax) (disk : App.Disk) (start end_ : option json) :
    App.Reply * App.Disk :=
  if is_None start || is_None end_
  then (App.Reply_ 400 "start and end times are required", disk)
  else
    match App.load_project_state L disk with
    | None => (App.Reply_ 404 "No project loaded", disk)
    | Some project =>
        match ProjectState.selected_slot project with
        | None => (App.Reply_ 400 "No highlight selected", disk)
        | Some (i, selected) =>
            match TimeRange_of L (default JNull start) (default JNull end_) with
            | Raise _ => (App.Reply_ 400 "Invalid time range", disk)
            | Ok r =>
                let hs :=
                  <[i := Highlight.set_time_range r selected]>
                    (ProjectState.highlights project) in
                (App.Reply_ 200 "Time range updated",
                 App.save_project_state (ProjectState.set_highlights hs project))
            end
        end
    end.

(** [f"exports/{highlight.name}_{highlight.id}.mp4"] *)
Definition output_path (highlight : Highlight.t) : string :=
  "exports/" +:+ Highlight.name highlight +:+ "_" +:+ Highlight.id highlight +:+ ".mp4".

(** What an export route answers: the output paths, or a refusal. *)
Inductive Export : Type :=
  | Initiated (output_paths : list string)
  | Refused (reply : App.Reply).

(** [POST /export/clip] *)
Definition export_clip (L : Pydantic.Lax) (disk : App.Disk) : Export :=
  match App.load_project_state L disk with
  | None => Refused (App.Reply_ 404 "No project loaded")
  | Some project =>
      match ProjectState.get_selected_highlight project with
      | None => Refused (App.Reply_ 400 "No highlight selected")
      | Some selected =>
          match ProjectState.video_file project with
          | None => Refused (App.Reply_ 400 "No video file loaded")
          | Some _ => Initiated [output_path selected]
          end
      end
  end.

(** [POST /export/all] *)
Definition export_all (L : Pydantic.Lax) (disk : App.Disk) : Export :=
  match App.load_project_state L disk with
  | None => Refused (App.Reply_ 404 "No project loaded")
  | Some project =>
      match ProjectState.highlights project with
      | [] => Refused (App.Reply_ 400 "No highlights to export")
      | _ :: _ =>
          match ProjectState.video_file project with
          | None => Refused (App.Reply_ 400 "No video file loaded")
          | Some _ => Initiated (output_path <$> ProjectState.highlights project)
          end
      end
  end.

End Routes.

(** ** [hlc_cli/main.py]: the commands

    A command is run on the file and gives the file afterwards.  What it
    prints, and the exit code, which also depends on whether the console
    renders the message, are left out, except for the table of
    [highlights]. *)

Module Commands.

(** [fightlight init NAME].  [file_exists] is [PROJECT_STATE_PATH.exists()]
    and [overwrite] the answer to the confirmation, asked only when the file
    exists. *)
Definition init (file_exists overwrite : bool) (name : string) (disk : App.Disk) :
    App.Disk :=
  if file_exists && negb overwrite then disk
  else App.save_project_state (ProjectState.new name).

(** A row handed to [table.add_row]: the id, the name and, as a boolean,
    the check mark.  The three cells between the name and the mark hold
    the start, the end and the duration as text with one decimal; they are
    not part of the model. *)
Record Row : Type := mkRow {
  row_id : string;
  row_name : string;
  row_selected : bool;
}.

Definition row (project : ProjectState.t) (highlight : Highlight.t) : Row :=
  mkRow (Highlight.id highlight) (Highlight.name highlight)
    (bool_decide (Some (Highlight.id highlight) = ProjectState.selected_highlight_id project)).

Inductive Listing : Type :=
  | NoProject          (* "No project found" *)
  | NoHighlights       (* "No highlights found" *)
  | Table (rows : list Row).

(** [fightlight highlights] *)
Definition highlights (L : Pydantic.Lax) (disk : App.Disk) : Listing :=
  match App.load_project_state L disk with
  | None => NoProject
  | Some project =>
      match ProjectState.highlights project with
      | [] => NoHighlights
      | _ :: _ => Table (row project <$> ProjectState.highlights project)
      end
  end.

(** [fightlight add-highlight NAME START END --desc DESCRIPTION], with
    [highlight_id] the eight characters drawn from [uuid.uuid4()]. *)
Definition add_highlight (L : Pydantic.Lax) (disk : App.Disk) (highlight_id name : string)
    (start end_ : float) (description : option string) : App.Disk :=
  match App.load_project_state L disk with
  | None => disk
  | Some project =>
      match TimeRange.new start end_ with
      | Raise _ => disk
      | Ok time_range =>
          let highlight := Highlight.mk highlight_id name time_range description [] in
          App.save_project_state (ProjectState.add_highlight highlight project)
      end
  end.

End Commands.

(** ** Conditions on a project and on the file, used to state what the
    operations keep *)

Module Invariant.

(** The selection, when there is one, is the id of some highlight. *)
Definition selection_live (p : ProjectState.t) : Prop :=
  forall sel, ProjectState.selected_highlight_id p = Some sel ->
    exists h, h ∈ ProjectState.highlights p /\ Highlight.id h = sel.

(** No two highlights share an id. *)
Definition unique_ids (p : ProjectState.t) : Prop :=
  NoDup (Highlight.id <$> ProjectState.highlights p).

(** The file [disk'] holds what [disk] held, possibly edited: when [disk]
    loads as a project with a live selection, so does [disk'], under the
    same name and with the highlights of [disk] still there, first and in
    order, under their ids. *)
Definition kept (L : Pydantic.Lax) (disk disk' : App.Disk) : Prop :=
  forall p, App.load_project_state L disk = Some p -> selection_live p ->
    exists p', App.load_project_state L disk' = Some p'
      /\ selection_live p'
      /\ ProjectState.project_name p' = ProjectState.project_name p
      /\ (Highlight.id <$> ProjectState.highlights p)
           `prefix_of` (Highlight.id <$> ProjectState.highlights p').

End Invariant.

(** ** Sample data, after [tests/test_core.py] and the examples of the
    specification *)

Module Sample.

(** [Highlight(id="highlight-1", name="First Highlight",
    time_range=TimeRange(start=5.0, end=15.0))] *)
Definition first_highlight : Highlight.t :=
  Highlight.mk "highlight-1" "First Highlight"
    (TimeRange.mk (of_Z 5) (of_Z 15)) None [].

Definition test_project : ProjectState.t :=
  ProjectState.add_highlight first_highlight (ProjectState.new "Test Project").

(** The project of [test_project_state_serialization]. *)
Definition serialization_project : ProjectState.t :=
  ProjectState.mk "Serialization Test"
    (Some (VideoFile.mk "/test/video.mp4" (Some (of_Z 60)) None None None))
    [Highlight.mk "serialize-test" "Serialization Highlight"
       (TimeRange.mk (of_Z 10) (of_Z 25)) (Some "Test serialization") []]
    None ∅.

(** Two highlights that share the identifier [id]. *)
Definition jab (id : string) : Highlight.t :=
  Highlight.mk id "Jab" (TimeRange.mk (of_Z 5) (of_Z 15)) None [].
Definition hook (id : string) : Highlight.t :=
  Highlight.mk id "Hook" (TimeRange.mk (of_Z 10) (of_Z 20)) None [].

Definition twins (id : string) : ProjectState.t :=
  ProjectState.mk "Fight Night" None [jab id; hook id] (Some id) ∅.

(** A project whose only highlight, [jab id], is selected. *)
Definition solo (id : string) : ProjectState.t :=
  ProjectState.mk "Fight Night" None [jab id] (Some id) ∅.

(** A project whose only highlight is [jab id], nothing being selected. *)
Definition unselected (id : string) : ProjectState.t :=
  ProjectState.mk "Fight Night" None [jab id] None ∅.

(** [{"project_name": "Fight Night", "selected_highlight_id": "ghost"}] *)
Definition dangling_document : json :=
  JDict (<["project_name" := JStr "Fight Night"]>
        (<["selected_highlight_id" := JStr "ghost"]> ∅)).

(** A document whose only highlight runs from 20.0 back to 10.0. *)
Definition inverted_document : json :=
  JDict (<["project_name" := JStr "Fight Night"]>
        (<["highlights" := JList [
             JDict (<["id" := JStr "h1"]>
                   (<["name" := JStr "Jab"]>
                   (<["time_range" :=
                        JDict (<["start" := JFloat (of_Z 20)]>
                              (<["end" := JFloat (of_Z 10)]> ∅))]> ∅)))]]> ∅)).

(** A project with one selected highlight of the given range. *)
Definition ranged (s e : Z) : ProjectState.t :=
  ProjectState.mk "Fight Night" None
    [Highlight.mk "h1" "Jab" (TimeRange.mk (of_Z s) (of_Z e)) None []]
    (Some "h1") ∅.

End Sample.

(** ** A project with a video, two highlights and a selection, and a
    highlight to import *)

Module Fixture.

Definition fight : ProjectState.t :=
  ProjectState.mk "Fight Night"
    (Some (VideoFile.mk "media/fight.mp4" None None None None))
    [Sample.jab "h1"; Sample.hook "h2"] (Some "h2") ∅.

Definition disk : App.Disk := App.save_project_state fight.

(** [Highlight(id="h3", name="Cross", time_range=TimeRange(start=30.0, end=40.0))] *)
Definition cross : Highlight.t :=
  Highlight.mk "h3" "Cross" (TimeRange.mk (of_Z 30) (of_Z 40)) None [].

(** [{"id": "h3", "name": "Cross", "time_range": {"start": 30.0, "end": 40.0}}] *)
Definition cross_document : json :=
  JDict (<["id" := JStr "h3"]>
        (<["name" := JStr "Cross"]>
        (<["time_range" :=
             JDict (<["start" := JFloat (of_Z 30)]>
                   (<["end" := JFloat (of_Z 40)]> ∅))]> ∅))).

End Fixture.

(** * Properties *)

(** ** Comparisons of floats *)

Section Comparisons.

Lemma SFcompare_swap (x y : float) :
  SFcompare y x = CompOpp <$> SFcompare x y.
Proof.
  destruct x as [[]|[]| |[] mx ex], y as [[]|[]| |[] my ey]; try reflexivity;
    cbn; rewrite (Z.compare_antisym ex ey);
    destruct (ex ?= ey); cbn; try reflexivity;
    rewrite (Pos.compare_cont_antisym mx my Eq); cbn;
    try rewrite CompOpp_involutive; reflexivity.
Qed.

Lemma le_false_lt (x y : float) :
  SFcompare x y <> None -> le x y = false -> lt y x = true.
Proof.
  unfold le, lt, SFleb, SFltb. rewrite (SFcompare_swap x y).
  destruct (SFcompare x y) as [[]|]; cbn; congruence.
Qed.

Lemma lt_le_false (x y : float) : lt y x = true -> le x y = false.
Proof.
  unfold le, lt, SFleb, SFltb. rewrite (SFcompare_swap x y).
  destruct (SFcompare x y) as [[]|]; cbn; congruence.
Qed.

Lemma lt_le (x y : float) : lt x y = true -> le x y = true.
Proof. unfold le, lt, SFleb, SFltb. destruct (SFcompare x y) as [[]|]; congruence. Qed.

Lemma le_comparable (x y : float) : le x y = true -> SFcompare x y <> None.
Proof. unfold le, SFleb. destruct (SFcompare x y); congruence. Qed.

Lemma lt_comparable (x y : float) : lt x y = true -> SFcompare x y <> None.
Proof. intros H%lt_le. by apply le_comparable. Qed.

Lemma comparable_zero (x y : float) :
  SFcompare zero x <> None -> SFcompare zero y <> None -> SFcompare y x <> None.
Proof. destruct x, y; cbn; congruence. Qed.

(** [0 <= x < y] gives [0 < y]. *)
Lemma zero_le_lt (x y : float) :
  le zero x = true -> lt x y = true -> lt zero y = true.
Proof.
  destruct x as [[]|[]| |[] mx ex], y as [[]|[]| |[] my ey]; cbn; congruence.
Qed.

Lemma max0_ge_zero (x : float) : ge (max0 x) zero = true.
Proof.
  unfold max0, ge, gt. destruct (SFltb zero x) eqn:H; [|reflexivity].
  by apply lt_le.
Qed.

End Comparisons.

(** ** Rounding never cancels a positive difference

    The subtraction of two floats rounds the exact difference of the aligned
    mantissas.  Thanks to the subnormal numbers, a positive difference never
    rounds down to zero. *)

Section Rounding.

Lemma digits2_pos_bounds (m : positive) :
  2 ^ (Z.pos (digits2_pos m) - 1) <= Z.pos m < 2 ^ Z.pos (digits2_pos m).
Proof.
  induction m as [m IH|m IH|]; cbn [digits2_pos].
  - rewrite Pos2Z.inj_succ.
    replace (Z.succ (Z.pos (digits2_pos m)) - 1) with (Z.succ (Z.pos (digits2_pos m) - 1)) by lia.
    rewrite !Z.pow_succ_r by lia. lia.
  - rewrite Pos2Z.inj_succ.
    replace (Z.succ (Z.pos (digits2_pos m)) - 1) with (Z.succ (Z.pos (digits2_pos m) - 1)) by lia.
    rewrite !Z.pow_succ_r by lia. lia.
  - cbn. lia.
Qed.

Lemma shr_m_of_loc (m : Z) (l : location) : shr_m (shr_record_of_loc m l) = m.
Proof. destruct l as [|[]]; reflexivity. Qed.

Lemma shr_1_m (mrs : shr_record) :
  0 <= shr_m mrs -> shr_m (shr_1 mrs) = Z.div2 (shr_m mrs).
Proof. destruct mrs as [[|[p|p|]|p] r s]; cbn; try reflexivity; lia. Qed.

Lemma iter_shr_1_m (p : positive) : forall mrs,
  0 <= shr_m mrs -> shr_m (iter_pos shr_1 p mrs) = Z.shiftr (shr_m mrs) (Z.pos p).
Proof.
  induction p as [p IH|p IH|]; intros mrs Hm; cbn [iter_pos].
  - assert (H1 : 0 <= shr_m (shr_1 mrs)).
    { rewrite shr_1_m by done. by rewrite Z.div2_nonneg. }
    assert (H2 : 0 <= shr_m (iter_pos shr_1 p (shr_1 mrs))).
    { rewrite IH by done. by apply Z.shiftr_nonneg. }
    rewrite IH, IH, shr_1_m by done.
    rewrite Z.div2_spec, !Z.shiftr_shiftr by lia. f_equal. lia.
  - assert (H2 : 0 <= shr_m (iter_pos shr_1 p mrs)).
    { rewrite IH by done. by apply Z.shiftr_nonneg. }
    rewrite IH, IH by done. rewrite Z.shiftr_shiftr by lia. f_equal. lia.
  - rewrite shr_1_m by done. apply Z.div2_spec.
Qed.

(** Shifting a mantissa to its canonical exponent keeps at least its leading
    bit. *)
Lemma shr_fexp_pos (m : positive) (e : Z) (l : location) :
  emin prec emax <= e ->
  exists m' e', shr_fexp prec emax (Z.pos m) e l = (m', e')
    /\ 0 < shr_m m' /\ emin prec emax <= e'.
Proof.
  intros He. unfold shr_fexp, shr. cbn [Zdigits2].
  destruct (fexp prec emax (Z.pos (digits2_pos m) + e) - e) as [|p|p] eqn:Hn.
  - eexists _, _. split; [reflexivity|]. rewrite shr_m_of_loc. lia.
  - eexists _, _. split; [reflexivity|]. split; [|lia].
    rewrite iter_shr_1_m by (rewrite shr_m_of_loc; lia).
    rewrite shr_m_of_loc, Z.shiftr_div_pow2 by lia.
    unfold fexp in Hn.
    pose proof (digits2_pos_bounds m) as [Hlo _].
    assert (Hp : Z.pos p <= Z.pos (digits2_pos m) - 1) by (unfold prec in *; lia).
    assert (2 ^ Z.pos p <= 2 ^ (Z.pos (digits2_pos m) - 1)) by (apply Z.pow_le_mono_r; lia).
    apply Z.div_str_pos. lia.
  - eexists _, _. split; [reflexivity|]. rewrite shr_m_of_loc. lia.
Qed.

Lemma round_nearest_even_pos (m : Z) (l : location) :
  0 < m -> 0 < round_nearest_even m l.
Proof. intros. destruct l as [|[]]; cbn; try lia. destruct (Z.even m); lia. Qed.

Lemma binary_round_aux_pos (m : positive) (e : Z) (l : location) :
  emin prec emax <= e ->
  lt zero (binary_round_aux prec emax false (Z.pos m) e l) = true.
Proof.
  intros He. unfold binary_round_aux.
  destruct (shr_fexp_pos m e l He) as (m1 & e1 & -> & Hm1 & He1).
  pose proof (round_nearest_even_pos (shr_m m1) (loc_of_shr_record m1) Hm1) as Hr.
  destruct (round_nearest_even (shr_m m1) (loc_of_shr_record m1)) as [|r|r]; try lia.
  destruct (shr_fexp_pos r e1 loc_Exact He1) as (m2 & e2 & -> & Hm2 & He2).
  destruct (shr_m m2) as [|q|q]; try lia.
  destruct (e2 <=? emax - prec); reflexivity.
Qed.

Lemma binary_round_pos (m : positive) (e : Z) :
  emin prec emax <= e ->
  lt zero (binary_round prec emax false m e) = true.
Proof.
  intros He. unfold binary_round, shl_align.
  destruct (fexp prec emax (Z.pos (digits2_pos m) + e) - e) eqn:Hn;
    apply binary_round_aux_pos; try done.
  unfold fexp. lia.
Qed.

Lemma iter_xO_pow (m d : positive) :
  Z.pos (Pos.iter xO m d) = Z.pos m * 2 ^ Z.pos d.
Proof.
  induction d as [|d IH] using Pos.peano_ind.
  - cbn. lia.
  - rewrite Pos.iter_succ, Pos2Z.inj_succ, Z.pow_succ_r by lia.
    rewrite Pos2Z.inj_xO, IH. lia.
Qed.

Lemma bounded_inv (m : positive) (e : Z) :
  bounded prec emax m e = true ->
  emin prec emax <= e /\ Z.pos (digits2_pos m) <= prec
  /\ (emin prec emax < e -> Z.pos (digits2_pos m) = prec).
Proof.
  unfold bounded, canonical_mantissa, fexp.
  intros [H _]%andb_prop. apply Z.eqb_eq in H. lia.
Qed.

(** [0 <= x < y] gives [y - x > 0]. *)
Lemma sub_pos (x y : float) :
  valid x -> valid y ->
  le zero x = true -> lt x y = true -> lt zero (sub y x) = true.
Proof.
  unfold valid. intros Vx Vy H0 Hlt.
  destruct x as [sx|sx| |sx mx ex], y as [sy|sy| |sy my ey];
    try discriminate; try destruct sx; try destruct sy; try discriminate;
    try reflexivity; try exact Hlt.
  cbn [valid_binary] in Vx, Vy.
  apply bounded_inv in Vx as (Hex & Hdx & _).
  apply bounded_inv in Vy as (Hey & Hdy & Hny).
  pose proof (digits2_pos_bounds mx) as [_ Hmx].
  pose proof (digits2_pos_bounds my) as [Hmy _].
  unfold lt, SFltb, SFcompare in Hlt. unfold sub. cbn [SFsub cond_Zopp].
  destruct (Z.compare_spec ex ey) as [->|Hc|Hc]; try discriminate.
  - rewrite Z.min_id. unfold shl_align. rewrite Z.sub_diag. cbn [fst].
    rewrite Pos.compare_cont_spec in Hlt. cbn in Hlt.
    assert (Hm : (mx < my)%positive).
    { destruct (Pos.compare_spec mx my); try discriminate; done. }
    destruct (Z.pos my - Z.pos mx) as [|D|D] eqn:HD; try lia.
    cbn [binary_normalize]. by apply binary_round_pos.
  - rewrite Z.min_r by lia. unfold shl_align. rewrite Z.sub_diag.
    destruct (ex - ey) as [|d|d] eqn:Hd; try lia. cbn [fst].
    rewrite iter_xO_pow.
    assert (Hpow : 2 ^ prec <= Z.pos my * 2 ^ Z.pos d).
    { rewrite Hny in Hmy by lia.
      assert (2 ^ 1 <= 2 ^ Z.pos d) by (apply Z.pow_le_mono_r; lia).
      replace (2 ^ prec) with (2 ^ (prec - 1) * 2 ^ 1) by reflexivity.
      apply Z.mul_le_mono_nonneg; lia. }
    assert (Hlt' : Z.pos mx < 2 ^ prec).
    { eapply Z.lt_le_trans; [exact Hmx|]. apply Z.pow_le_mono_r; lia. }
    destruct (Z.pos my * 2 ^ Z.pos d - Z.pos mx) as [|D|D] eqn:HD; try lia.
    cbn [binary_normalize]. by apply binary_round_pos.
Qed.

End Rounding.

(** ** [TimeRange] *)

Section TimeRangeFacts.

Lemma TimeRange_new_ok_iff (s e : float) (r : TimeRange.t) :
  TimeRange.new s e = Ok r <->
  r = TimeRange.mk s e /\ ge s zero = true /\ gt e s = true.
Proof.
  unfold TimeRange.new, ge, gt.
  destruct (SFleb zero s) eqn:Hs; cbn.
  2: { split; [discriminate | intros (_ & ? & _); discriminate]. }
  destruct (SFltb zero e) eqn:He; cbn.
  - destruct (le e s) eqn:Hle.
    + split; [discriminate|]. intros (_ & _ & Hlt).
      apply lt_le_false in Hlt. congruence.
    + split; [intros [= <-] | intros (-> & _); reflexivity].
      split_and!; [done..|]. apply le_false_lt; [|done].
      apply comparable_zero; [by apply le_comparable | by apply lt_comparable].
  - split; [discriminate|]. intros (_ & _ & Hlt).
    pose proof (zero_le_lt s e Hs Hlt). unfold lt in *. congruence.
Qed.

Lemma TimeRange_new_raise (s e : float) :
  ~ (ge s zero = true /\ gt e s = true) -> TimeRange.new s e = Raise ValidationError.
Proof.
  intros Hn. destruct (TimeRange.new s e) as [r|[]] eqn:H; [|done].
  apply TimeRange_new_ok_iff in H as (_ & ? & ?). by destruct Hn.
Qed.

End TimeRangeFacts.

(** C2. For all floats [start] and [end], [TimeRange(start, end)] is built,
    with the two values as given, exactly when [start >= 0] and
    [end > start]; any other pair raises a validation error; and the
    duration [end - start] of a range that was built is strictly positive. *)
Theorem TimeRange_new_spec (s e : float) :
  valid s -> valid e ->
  (ge s zero = true /\ gt e s = true -> TimeRange.new s e = Ok (TimeRange.mk s e))
  /\ (~ (ge s zero = true /\ gt e s = true) -> TimeRange.new s e = Raise ValidationError)
  /\ (forall r, TimeRange.new s e = Ok r ->
        r = TimeRange.mk s e /\ gt (Cli.duration r) zero = true).
Proof.
  intros Vs Ve. split_and!.
  - intros [Hs He]. by apply TimeRange_new_ok_iff.
  - apply TimeRange_new_raise.
  - intros r (-> & Hs & He)%TimeRange_new_ok_iff. split; [done|].
    unfold Cli.duration, gt; cbn. by apply sub_pos.
Qed.

Lemma TimeRange_new_spec_witness :
  valid (of_Z 10) /\ valid (of_Z 20)
  /\ TimeRange.new (of_Z 10) (of_Z 20) = Ok (TimeRange.mk (of_Z 10) (of_Z 20))
  /\ gt (Cli.duration (TimeRange.mk (of_Z 10) (of_Z 20))) zero = true.
Proof.
  assert (V10 : valid (of_Z 10)) by (vm_compute; reflexivity).
  assert (V20 : valid (of_Z 20)) by (vm_compute; reflexivity).
  destruct (TimeRange_new_spec (of_Z 10) (of_Z 20) V10 V20) as (Hok & _ & Hdur).
  assert (H : TimeRange.new (of_Z 10) (of_Z 20) = Ok (TimeRange.mk (of_Z 10) (of_Z 20))).
  { apply Hok. split; vm_compute; reflexivity. }
  split_and!; [done..|]. by apply (Hdur _ H).
Defined.

(** ** The methods of [ProjectState] *)

Section Methods.

Implicit Types (p : ProjectState.t) (h : Highlight.t) (hid sel : string).

(** The scan stops at the first highlight that carries the identifier. *)
Lemma scan_first p hid (l1 l2 : list Highlight.t) h :
  ProjectState.highlights p = l1 ++ h :: l2 ->
  Forall (fun x => Highlight.id x <> hid) l1 ->
  Highlight.id h = hid ->
  ProjectState.scan hid p = Some (length l1, h).
Proof.
  intros Hl Hl1 Hh. unfold ProjectState.scan. rewrite Hl.
  apply list_find_Some. split_and!; [apply list_lookup_middle; done | done |].
  intros j y Hj Hlt. rewrite lookup_app_l in Hj by done.
  by apply (Forall_lookup_1 _ _ _ _ Hl1 Hj).
Qed.

(** A list of highlights either splits at the first one that carries the
    identifier or holds none that does. *)
Lemma first_match_cases hid (l : list Highlight.t) :
  (exists (l1 l2 : list Highlight.t) h,
      l = l1 ++ h :: l2
      /\ Forall (fun x => Highlight.id x <> hid) l1
      /\ Highlight.id h = hid)
  \/ Forall (fun x => Highlight.id x <> hid) l.
Proof.
  induction l as [|x l [(l1 & l2 & h & -> & Hl1 & Hh) | Hnone]].
  - right. constructor.
  - destruct (decide (Highlight.id x = hid)) as [Hx | Hx].
    + left. exists [], (l1 ++ h :: l2), x. split_and!; [done | constructor | done].
    + left. exists (x :: l1), l2, h. split_and!; [done | by constructor | done].
  - destruct (decide (Highlight.id x = hid)) as [Hx | Hx].
    + left. exists [], l, x. split_and!; [done | constructor | done].
    + right. by constructor.
Qed.

Lemma scan_none p hid :
  Forall (fun x => Highlight.id x <> hid) (ProjectState.highlights p) ->
  ProjectState.scan hid p = None.
Proof. intros H. by apply list_find_None. Qed.

Lemma get_selected_highlight_first p sel (l1 l2 : list Highlight.t) h :
  ProjectState.selected_highlight_id p = Some sel ->
  sel <> "" ->
  ProjectState.highlights p = l1 ++ h :: l2 ->
  Forall (fun x => Highlight.id x <> sel) l1 ->
  Highlight.id h = sel ->
  ProjectState.get_selected_highlight p = Some h.
Proof.
  intros Hs Hne Hl Hl1 Hh.
  unfold ProjectState.get_selected_highlight, ProjectState.selected_slot.
  rewrite Hs. rewrite decide_False by done.
  by rewrite (scan_first p sel l1 l2 h).
Qed.

Lemma remove_highlight_first p hid (l1 l2 : list Highlight.t) h :
  ProjectState.highlights p = l1 ++ h :: l2 ->
  Forall (fun x => Highlight.id x <> hid) l1 ->
  Highlight.id h = hid ->
  ProjectState.remove_highlight hid p =
    (true,
     ProjectState.mk (ProjectState.project_name p) (ProjectState.video_file p)
       (l1 ++ l2)
       (if decide (ProjectState.selected_highlight_id p = Some hid)
        then None else ProjectState.selected_highlight_id p)
       (ProjectState.export_settings p)).
Proof.
  intros Hl Hl1 Hh. unfold ProjectState.remove_highlight.
  rewrite (scan_first p hid l1 l2 h) by done.
  rewrite Hl, delete_middle. cbn.
  by destruct (decide (ProjectState.selected_highlight_id p = Some hid)).
Qed.

End Methods.

(** C1. [remove_highlight(id)] takes out the first highlight whose id is
    [id], and only that one, and returns [True]; the selection is cleared
    exactly when it was [id], and the other fields stay as they were.  When
    no highlight has that id it returns [False] and the project is
    unchanged.  One of the two is always the case. *)
Theorem remove_highlight_spec (p : ProjectState.t) (hid : string) :
  (forall (l1 l2 : list Highlight.t) (h : Highlight.t),
      ProjectState.highlights p = l1 ++ h :: l2 ->
      Forall (fun x => Highlight.id x <> hid) l1 ->
      Highlight.id h = hid ->
      ProjectState.remove_highlight hid p =
        (true,
         ProjectState.mk (ProjectState.project_name p) (ProjectState.video_file p)
           (l1 ++ l2)
           (if decide (ProjectState.selected_highlight_id p = Some hid)
            then None else ProjectState.selected_highlight_id p)
           (ProjectState.export_settings p)))
  /\ (Forall (fun x => Highlight.id x <> hid) (ProjectState.highlights p) ->
      ProjectState.remove_highlight hid p = (false, p))
  /\ ((exists (l1 l2 : list Highlight.t) (h : Highlight.t),
         ProjectState.highlights p = l1 ++ h :: l2
         /\ Forall (fun x => Highlight.id x <> hid) l1
         /\ Highlight.id h = hid)
      \/ Forall (fun x => Highlight.id x <> hid) (ProjectState.highlights p)).
Proof.
  split_and!.
  - intros l1 l2 h. apply remove_highlight_first.
  - intros H. unfold ProjectState.remove_highlight. by rewrite scan_none.
  - apply first_match_cases.
Qed.

Lemma remove_highlight_spec_witness :
  ProjectState.remove_highlight "highlight-1"
      (ProjectState.set_selected_highlight_id (Some "highlight-1") Sample.test_project)
    = (true, ProjectState.new "Test Project")
  /\ ProjectState.remove_highlight "non-existent" Sample.test_project
    = (false, Sample.test_project).
Proof.
  split.
  - apply (proj1 (remove_highlight_spec
             (ProjectState.set_selected_highlight_id (Some "highlight-1") Sample.test_project)
             "highlight-1") [] [] Sample.first_highlight).
    + reflexivity.
    + constructor.
    + reflexivity.
  - apply (proj1 (proj2 (remove_highlight_spec Sample.test_project "non-existent"))).
    repeat constructor. discriminate.
Defined.

(** C3. [get_selected_highlight()] returns [None] when nothing is selected,
    when the selection is the empty string, and when no highlight carries
    the selected id; for any other selection it returns the first highlight
    whose id is the selected one; these cases leave no selection out.  It
    is a function of the project alone and returns nothing but the
    highlight: a query. *)
Theorem get_selected_highlight_spec (p : ProjectState.t) :
  (ProjectState.selected_highlight_id p = None \/
   ProjectState.selected_highlight_id p = Some "" ->
   ProjectState.get_selected_highlight p = None)
  /\ (forall sel : string,
      ProjectState.selected_highlight_id p = Some sel ->
      Forall (fun x => Highlight.id x <> sel) (ProjectState.highlights p) ->
      ProjectState.get_selected_highlight p = None)
  /\ (forall (sel : string) (l1 l2 : list Highlight.t) (h : Highlight.t),
      ProjectState.selected_highlight_id p = Some sel ->
      sel <> "" ->
      ProjectState.highlights p = l1 ++ h :: l2 ->
      Forall (fun x => Highlight.id x <> sel) l1 ->
      Highlight.id h = sel ->
      ProjectState.get_selected_highlight p = Some h)
  /\ (forall sel : string,
      (exists (l1 l2 : list Highlight.t) (h : Highlight.t),
          ProjectState.highlights p = l1 ++ h :: l2
          /\ Forall (fun x => Highlight.id x <> sel) l1
          /\ Highlight.id h = sel)
      \/ Forall (fun x => Highlight.id x <> sel) (ProjectState.highlights p)).
Proof.
  unfold ProjectState.get_selected_highlight, ProjectState.selected_slot.
  split_and!.
  - by intros [-> | ->].
  - intros sel -> Hall. destruct (decide (sel = "")); [done|].
    by rewrite scan_none.
  - intros sel l1 l2 h Hs Hne Hl Hl1 Hh.
    by apply (get_selected_highlight_first p sel l1 l2 h).
  - intros sel. apply first_match_cases.
Qed.

Lemma get_selected_highlight_spec_witness :
  ProjectState.get_selected_highlight Sample.test_project = None
  /\ ProjectState.get_selected_highlight
       (ProjectState.set_selected_highlight_id (Some "ghost") Sample.test_project) = None
  /\ ProjectState.get_selected_highlight (Sample.twins "h1") = Some (Sample.jab "h1").
Proof.
  split_and!.
  - apply (proj1 (get_selected_highlight_spec Sample.test_project)).
    left. reflexivity.
  - apply (proj1 (proj2 (get_selected_highlight_spec
             (ProjectState.set_selected_highlight_id (Some "ghost") Sample.test_project)))
             "ghost").
    + reflexivity.
    + repeat constructor. discriminate.
  - apply (proj1 (proj2 (proj2 (get_selected_highlight_spec (Sample.twins "h1"))))
             "h1" [] [Sample.hook "h1"] (Sample.jab "h1")).
    + reflexivity.
    + discriminate.
    + reflexivity.
    + constructor.
    + reflexivity.
Defined.

(** With the empty string as its id a highlight can be selected on the
    field and still not be returned: [not self.selected_highlight_id] reads
    the empty selection as no selection. *)
Lemma get_selected_highlight_empty_selection :
  ProjectState.selected_highlight_id (Sample.solo "") = Some ""
  /\ ProjectState.highlights (Sample.solo "") = [Sample.jab ""]
  /\ Highlight.id (Sample.jab "") = ""
  /\ ProjectState.get_selected_highlight (Sample.solo "") = None.
Proof. split_and!; reflexivity. Qed.

(** C10. When several highlights share the id [d], [remove_highlight(d)]
    removes the first of them only and returns [True]; a selection equal to
    [d] is cleared although a highlight with id [d] remains, any other
    selection is kept; and, [d] being selected and not the empty string,
    [get_selected_highlight()] returns the first of them. *)
Theorem duplicate_ids_spec (p : ProjectState.t) (d : string)
    (l1 l2 : list Highlight.t) (h1 h2 : Highlight.t) :
  ProjectState.highlights p = l1 ++ h1 :: l2 ->
  Forall (fun x => Highlight.id x <> d) l1 ->
  Highlight.id h1 = d ->
  h2 ∈ l2 -> Highlight.id h2 = d ->
  (exists p',
      ProjectState.remove_highlight d p = (true, p')
      /\ ProjectState.highlights p' = l1 ++ l2
      /\ h2 ∈ ProjectState.highlights p'
      /\ (ProjectState.selected_highlight_id p = Some d ->
          ProjectState.selected_highlight_id p' = None)
      /\ (ProjectState.selected_highlight_id p <> Some d ->
          ProjectState.selected_highlight_id p' = ProjectState.selected_highlight_id p))
  /\ (ProjectState.selected_highlight_id p = Some d -> d <> "" ->
      ProjectState.get_selected_highlight p = Some h1).
Proof.
  intros Hl Hl1 Hh1 Hin Hh2. split.
  - eexists. split; [by apply (remove_highlight_first p d l1 l2 h1)|].
    cbn. split_and!.
    + done.
    + apply elem_of_app. by right.
    + intros Hs. by rewrite decide_True.
    + intros Hs. by rewrite decide_False.
  - intros Hs Hne. by apply (get_selected_highlight_first p d l1 l2 h1).
Qed.

Lemma duplicate_ids_spec_witness :
  (exists p',
      ProjectState.remove_highlight "h1" (Sample.twins "h1") = (true, p')
      /\ ProjectState.highlights p' = [Sample.hook "h1"]
      /\ ProjectState.selected_highlight_id p' = None)
  /\ ProjectState.get_selected_highlight (Sample.twins "h1") = Some (Sample.jab "h1").
Proof.
  assert (Hin : Sample.hook "h1" ∈ [Sample.hook "h1"]) by apply list_elem_of_here.
  destruct (duplicate_ids_spec (Sample.twins "h1") "h1" [] [Sample.hook "h1"]
              (Sample.jab "h1") (Sample.hook "h1")
              eq_refl (Forall_nil_2 _) eq_refl Hin eq_refl)
    as [(p' & Hrm & Hhs & _ & Hsel & _) Hget].
  split.
  - exists p'. split_and!; [exact Hrm | exact Hhs | by apply Hsel].
  - apply Hget; [reflexivity | discriminate].
Defined.

(** Two highlights share the empty id and the empty id is selected: the
    first of them matches the selection, and the query returns [None]. *)
Lemma get_selected_highlight_empty_twins :
  ProjectState.highlights (Sample.twins "") = [Sample.jab ""; Sample.hook ""]
  /\ Highlight.id (Sample.jab "") = "" /\ Highlight.id (Sample.hook "") = ""
  /\ ProjectState.selected_highlight_id (Sample.twins "") = Some ""
  /\ ProjectState.get_selected_highlight (Sample.twins "") = None
  /\ ProjectState.get_selected_highlight (Sample.twins "") <> Some (Sample.jab "").
Proof. split_and!; try reflexivity. discriminate. Qed.

(** ** Loading and dumping *)

Section Documents.

Context (L : Pydantic.Lax).

Lemma bind_Ok {A B : Type} (m : result A) (k : A -> result B) (b : B) :
  m ≫= k = Ok b -> exists a, m = Ok a /\ k a = Ok b.
Proof. destruct m as [a|e]; [eauto | discriminate]. Qed.

Lemma each_Ok {A B : Type} (v : A -> result B) (l : list A) (l' : list B) :
  each v l = Ok l' -> Forall2 (fun x y => v x = Ok y) l l'.
Proof.
  revert l'. induction l as [|x l IH]; intros l'; cbn [each].
  - intros [= <-]. constructor.
  - intros (y & Hy & (ys & Hys & [= <-])%bind_Ok)%bind_Ok.
    constructor; [done | by apply IH].
Qed.

Lemma each_fmap {B : Type} (v : json -> result B) (f : B -> json) (l : list B) :
  Forall (fun y => v (f y) = Ok y) l -> each v (f <$> l) = Ok l.
Proof.
  induction 1 as [|y l Hy _ IH]; [done|].
  cbn [fmap list_fmap each]. rewrite Hy. cbn.
  fold (fmap (M:=list) f l). by rewrite IH.
Qed.

(** Reading the fields of a dumped model. *)
Ltac fields :=
  unfold Pydantic.required, Pydantic.defaulted;
  repeat first [rewrite lookup_insert_eq | rewrite lookup_insert_ne by done].

Lemma TimeRange_model_validate_invariant (j : json) (r : TimeRange.t) :
  TimeRange.model_validate L j = Ok r -> TimeRange.invariant r.
Proof.
  unfold TimeRange.model_validate.
  intros (d & _ & (s & _ & (e & _ & H)%bind_Ok)%bind_Ok)%bind_Ok.
  by apply TimeRange_new_ok_iff in H as (-> & ? & ?).
Qed.

Lemma Highlight_model_validate_invariant (j : json) (h : Highlight.t) :
  Highlight.model_validate L j = Ok h ->
  TimeRange.invariant (Highlight.time_range h).
Proof.
  unfold Highlight.model_validate.
  intros (d & _ & (i & _ & (n & _ & (r & Hr & H)%bind_Ok)%bind_Ok)%bind_Ok)%bind_Ok.
  apply bind_Ok in H as (de & _ & (ta & _ & [= <-])%bind_Ok). cbn.
  unfold Pydantic.required in Hr. destruct (d !! "time_range") as [jr|]; [|done].
  by apply TimeRange_model_validate_invariant in Hr.
Qed.

(** A highlight whose range is out of order is refused. *)
Lemma Highlight_model_validate_range (hm tm : gmap string json) (js je : json) (s e : float) :
  hm !! "time_range" = Some (JDict tm) ->
  tm !! "start" = Some js -> tm !! "end" = Some je ->
  Pydantic.to_float L js = Some s -> Pydantic.to_float L je = Some e ->
  ~ (ge s zero = true /\ gt e s = true) ->
  Highlight.model_validate L (JDict hm) = Raise ValidationError.
Proof.
  intros Hr Hs He Hfs Hfe Hbad.
  destruct (Highlight.model_validate L (JDict hm)) as [h|[]] eqn:Hh; [|done].
  exfalso. revert Hh. unfold Highlight.model_validate.
  intros (d & [= <-] & (i & _ & (n & _ & (r & Hv & _)%bind_Ok)%bind_Ok)%bind_Ok)%bind_Ok.
  revert Hv. unfold Pydantic.required. rewrite Hr.
  unfold TimeRange.model_validate. cbn [Pydantic.dict mbind result_bind].
  unfold Pydantic.required, Pydantic.float_. rewrite Hs, He, Hfs, Hfe. cbn.
  by rewrite TimeRange_new_raise.
Qed.

(** What a successful load read from the document. *)
Lemma ProjectState_model_validate_highlights (j : json) (p : ProjectState.t) :
  ProjectState.model_validate L j = Ok p ->
  exists (d : gmap string json) (entries : list json),
    j = JDict d
    /\ (d !! "highlights" = Some (JList entries)
        \/ d !! "highlights" = None /\ entries = [])
    /\ Forall2 (fun x h => Highlight.model_validate L x = Ok h)
         entries (ProjectState.highlights p).
Proof.
  unfold ProjectState.model_validate.
  intros (d & Hd & (n & _ & (v & _ & (hs & Hhs & H)%bind_Ok)%bind_Ok)%bind_Ok)%bind_Ok.
  apply bind_Ok in H as (s & _ & (x & _ & [= <-])%bind_Ok). cbn.
  destruct j; try discriminate. injection Hd as ->.
  unfold Pydantic.defaulted in Hhs.
  destruct (d !! "highlights") as [[| | | | |entries|]|] eqn:Hl; try discriminate.
  - exists d, entries. split_and!; [done | by left |]. by apply each_Ok.
  - injection Hhs as <-. exists d, []. split_and!; [done | by right | constructor].
Qed.

Context (HN : Pydantic.Native L).

Lemma TimeRange_roundtrip (r : TimeRange.t) :
  TimeRange.invariant r ->
  TimeRange.model_validate L (TimeRange.model_dump r) = Ok r.
Proof.
  intros [Hs He].
  unfold TimeRange.model_validate, TimeRange.model_dump.
  cbn [Pydantic.dict mbind result_bind]. fields.
  unfold Pydantic.float_. rewrite !(Pydantic.to_float_float L HN). cbn.
  apply TimeRange_new_ok_iff. by destruct r.
Qed.

Lemma optional_float_roundtrip (o : option float) :
  Pydantic.optional (Pydantic.float_ L) (Pydantic.dump_optional JFloat o) = Ok o.
Proof.
  destruct o as [f|]; [|done]. cbn.
  unfold Pydantic.float_. by rewrite (Pydantic.to_float_float L HN).
Qed.

Lemma optional_int_roundtrip (o : option Z) :
  Pydantic.optional (Pydantic.int_ L) (Pydantic.dump_optional JInt o) = Ok o.
Proof.
  destruct o as [z|]; [|done]. cbn.
  unfold Pydantic.int_. by rewrite (Pydantic.to_int_int L HN).
Qed.

Lemma optional_str_roundtrip (o : option string) :
  Pydantic.optional Pydantic.str (Pydantic.dump_optional JStr o) = Ok o.
Proof. by destruct o. Qed.

Lemma VideoFile_roundtrip (v : VideoFile.t) :
  VideoFile.model_validate L (VideoFile.model_dump v) = Ok v.
Proof.
  unfold VideoFile.model_validate, VideoFile.model_dump.
  cbn [Pydantic.dict mbind result_bind]. fields.
  rewrite !optional_float_roundtrip, !optional_int_roundtrip. by destruct v.
Qed.

Lemma Highlight_roundtrip (h : Highlight.t) :
  TimeRange.invariant (Highlight.time_range h) ->
  Highlight.model_validate L (Highlight.model_dump h) = Ok h.
Proof.
  intros Hr.
  unfold Highlight.model_validate, Highlight.model_dump.
  cbn [Pydantic.dict mbind result_bind]. fields.
  rewrite TimeRange_roundtrip, optional_str_roundtrip by done.
  cbn [Pydantic.str Pydantic.list_ mbind result_bind].
  rewrite (each_fmap Pydantic.str JStr) by (by apply Forall_true).
  by destruct h.
Qed.

Lemma ProjectState_roundtrip (p : ProjectState.t) :
  ProjectState.ranges_ok p ->
  ProjectState.model_validate L (ProjectState.model_dump p) = Ok p.
Proof.
  intros Hr.
  unfold ProjectState.model_validate, ProjectState.model_dump.
  cbn [Pydantic.dict mbind result_bind]. fields.
  cbn [Pydantic.str Pydantic.list_ mbind result_bind].
  assert (Hv : Pydantic.optional (VideoFile.model_validate L)
                 (Pydantic.dump_optional VideoFile.model_dump (ProjectState.video_file p))
               = Ok (ProjectState.video_file p)).
  { destruct (ProjectState.video_file p) as [v|] eqn:Hv; [|done].
    cbn [Pydantic.dump_optional]. unfold Pydantic.optional.
    rewrite VideoFile_roundtrip. by destruct v. }
  rewrite Hv. cbn [mbind result_bind].
  rewrite (each_fmap (Highlight.model_validate L) Highlight.model_dump).
  2: { eapply Forall_impl; [exact Hr|]. intros h. apply Highlight_roundtrip. }
  cbn [mbind result_bind]. rewrite optional_str_roundtrip. by destruct p.
Qed.

End Documents.

(** ** The claims on documents and routes *)

Lemma strict_native : Pydantic.Native Pydantic.strict.
Proof. by split. Qed.

Lemma load_save (L : Pydantic.Lax) (p : ProjectState.t) :
  Pydantic.Native L -> ProjectState.ranges_ok p ->
  App.load_project_state L (App.save_project_state p) = Some p.
Proof.
  intros HN Hr. unfold App.load_project_state, App.save_project_state.
  by rewrite ProjectState_roundtrip.
Qed.

(** C6. [add_highlight(h)] appends [h] after the highlights already there,
    which keep their positions, and touches no other field, whether or not
    the id of [h] is already in use: nothing is checked and nothing is
    raised. *)
Theorem add_highlight_spec (p : ProjectState.t) (h : Highlight.t) :
  let p' := ProjectState.add_highlight h p in
  ProjectState.highlights p' = ProjectState.highlights p ++ [h]
  /\ (forall (i : nat) (x : Highlight.t),
        ProjectState.highlights p !! i = Some x ->
        ProjectState.highlights p' !! i = Some x)
  /\ ProjectState.highlights p' !! length (ProjectState.highlights p) = Some h
  /\ length (ProjectState.highlights p') = S (length (ProjectState.highlights p))
  /\ ProjectState.project_name p' = ProjectState.project_name p
  /\ ProjectState.video_file p' = ProjectState.video_file p
  /\ ProjectState.selected_highlight_id p' = ProjectState.selected_highlight_id p
  /\ ProjectState.export_settings p' = ProjectState.export_settings p.
Proof.
  intros p'. subst p'. unfold ProjectState.add_highlight. cbn.
  split_and!; try reflexivity.
  - intros i x Hi. by apply lookup_app_l_Some.
  - apply list_lookup_middle. reflexivity.
  - rewrite length_app. cbn. lia.
Qed.

(** Adding a highlight whose id is taken goes through and changes the
    project. *)
Lemma add_highlight_duplicate :
  Sample.first_highlight ∈ ProjectState.highlights Sample.test_project
  /\ ProjectState.highlights
       (ProjectState.add_highlight Sample.first_highlight Sample.test_project)
     = [Sample.first_highlight; Sample.first_highlight]
  /\ ProjectState.add_highlight Sample.first_highlight Sample.test_project
     <> Sample.test_project.
Proof.
  split_and!.
  - apply list_elem_of_here.
  - reflexivity.
  - intros [=].
Qed.

(** C8. [VideoFile(path, duration, fps, width, height)] is built for every
    path, the empty string included, and keeps the five values as given;
    the same holds when the five values come in as a document. *)
Theorem VideoFile_new_spec (L : Pydantic.Lax) (path : string)
    (duration fps : option float) (width height : option Z) :
  Pydantic.Native L ->
  exists v,
    VideoFile.new path duration fps width height = Ok v
    /\ VideoFile.model_validate L (VideoFile.model_dump v) = Ok v
    /\ VideoFile.path v = path
    /\ VideoFile.duration v = duration /\ VideoFile.fps v = fps
    /\ VideoFile.width v = width /\ VideoFile.height v = height.
Proof.
  intros HN. exists (VideoFile.mk path duration fps width height).
  split_and!; try reflexivity. by apply VideoFile_roundtrip.
Qed.

Lemma VideoFile_new_spec_witness :
  Pydantic.Native Pydantic.strict
  /\ exists v,
       VideoFile.new "/test/video.mp4" (Some (of_Z 60)) None None None = Ok v
       /\ VideoFile.path v = "/test/video.mp4"
       /\ VideoFile.duration v = Some (of_Z 60).
Proof.
  split; [exact strict_native|].
  destruct (VideoFile_new_spec Pydantic.strict "/test/video.mp4"
              (Some (of_Z 60)) None None None strict_native)
    as (v & Hnew & _ & Hpath & Hdur & _).
  exists v. split_and!; [exact Hnew | exact Hpath | exact Hdur].
Defined.

(** The empty path is accepted, by the constructor and on loading. *)
Lemma VideoFile_empty_path :
  VideoFile.new "" None None None None = Ok (VideoFile.mk "" None None None None)
  /\ VideoFile.new "" None None None None <> Raise ValidationError
  /\ VideoFile.model_validate Pydantic.strict (JDict {[ "path" := JStr "" ]})
     = Ok (VideoFile.mk "" None None None None).
Proof. split_and!; [reflexivity | discriminate | vm_compute; reflexivity]. Qed.

(** C5. A project whose highlights all have a valid range is read back
    from its dump, and from the file it was saved to, equal to itself on
    every field: name, video file, highlights in their order, selection and
    export settings.  The dump has the field names and the nesting of the
    JSON document of the specification. *)
Theorem model_roundtrip (L : Pydantic.Lax) (p : ProjectState.t) :
  Pydantic.Native L -> ProjectState.ranges_ok p ->
  ProjectState.model_validate L (ProjectState.model_dump p) = Ok p
  /\ App.load_project_state L (App.save_project_state p) = Some p
  /\ exists d : gmap string json,
       ProjectState.model_dump p = JDict d
       /\ d !! "project_name" = Some (JStr (ProjectState.project_name p))
       /\ d !! "video_file" =
            Some (match ProjectState.video_file p with
                  | Some v => VideoFile.model_dump v
                  | None => JNull
                  end)
       /\ d !! "highlights" =
            Some (JList (Highlight.model_dump <$> ProjectState.highlights p))
       /\ d !! "selected_highlight_id" =
            Some (match ProjectState.selected_highlight_id p with
                  | Some sel => JStr sel
                  | None => JNull
                  end)
       /\ d !! "export_settings" = Some (JDict (ProjectState.export_settings p)).
Proof.
  intros HN Hr. split_and!; [by apply ProjectState_roundtrip | by apply load_save |].
  eexists. split_and!; reflexivity.
Qed.

Lemma model_roundtrip_witness :
  Pydantic.Native Pydantic.strict
  /\ ProjectState.ranges_ok Sample.serialization_project
  /\ ProjectState.model_validate Pydantic.strict
       (ProjectState.model_dump Sample.serialization_project)
     = Ok Sample.serialization_project
  /\ App.load_project_state Pydantic.strict
       (App.save_project_state Sample.serialization_project)
     = Some Sample.serialization_project.
Proof.
  assert (Hr : ProjectState.ranges_ok Sample.serialization_project).
  { repeat constructor. }
  split_and!; [exact strict_native | exact Hr | |];
    apply (model_roundtrip Pydantic.strict Sample.serialization_project strict_native Hr).
Defined.

(** C7. Loading a document either fails or yields a project all of whose
    highlights have a valid range ([start >= 0] and [end > start]); a
    document with one highlight whose range breaks that order fails as a
    whole.  Whether the selected id belongs to a highlight is not looked
    at. *)
Theorem model_validate_revalidates (L : Pydantic.Lax) (j : json) :
  (forall p, ProjectState.model_validate L j = Ok p -> ProjectState.ranges_ok p)
  /\ (forall (d hm tm : gmap string json) (entries : list json) (js je : json) (s e : float),
      j = JDict d ->
      d !! "highlights" = Some (JList entries) ->
      JDict hm ∈ entries ->
      hm !! "time_range" = Some (JDict tm) ->
      tm !! "start" = Some js -> tm !! "end" = Some je ->
      Pydantic.to_float L js = Some s -> Pydantic.to_float L je = Some e ->
      ~ (ge s zero = true /\ gt e s = true) ->
      ProjectState.model_validate L j = Raise ValidationError).
Proof.
  split.
  - intros p (d & entries & _ & _ & Hall)%ProjectState_model_validate_highlights.
    unfold ProjectState.ranges_ok. revert Hall.
    generalize (ProjectState.highlights p). intros hs Hall.
    induction Hall as [|x h entries hs Hx _ IH]; constructor; [|done].
    by apply (Highlight_model_validate_invariant L x).
  - intros d hm tm entries js je s e -> Hhs Hin Hr Hs He Hfs Hfe Hbad.
    destruct (ProjectState.model_validate L (JDict d)) as [p|[]] eqn:Hp; [|done].
    exfalso.
    apply ProjectState_model_validate_highlights in Hp
      as (d' & entries' & [= <-] & [Hl | [Hl _]] & Hall); [|congruence].
    rewrite Hhs in Hl. injection Hl as <-.
    destruct (proj1 (list_elem_of_lookup _ _) Hin) as [i Hi].
    destruct (Forall2_lookup_l _ _ _ _ _ Hall Hi) as (h & _ & Hh).
    by rewrite (Highlight_model_validate_range L hm tm js je s e) in Hh.
Qed.

Lemma model_validate_revalidates_witness :
  ProjectState.ranges_ok Sample.serialization_project
  /\ ProjectState.model_validate Pydantic.strict Sample.inverted_document
     = Raise ValidationError.
Proof.
  split.
  - apply (proj1 (model_validate_revalidates Pydantic.strict
                    (ProjectState.model_dump Sample.serialization_project))).
    apply ProjectState_roundtrip; [exact strict_native | repeat constructor].
  - eapply (proj2 (model_validate_revalidates Pydantic.strict Sample.inverted_document)
              _ _ _ _ (JFloat (of_Z 20)) (JFloat (of_Z 10)) (of_Z 20) (of_Z 10)
              eq_refl).
    + reflexivity.
    + apply list_elem_of_here.
    + reflexivity.
    + reflexivity.
    + reflexivity.
    + reflexivity.
    + reflexivity.
    + intros [_ H]. discriminate H.
Defined.

(** A document that selects an id no highlight has is loaded, selection
    included. *)
Lemma dangling_selection_loads :
  ProjectState.model_validate Pydantic.strict Sample.dangling_document
    = Ok (ProjectState.mk "Fight Night" None [] (Some "ghost") ∅)
  /\ ~ ProjectState.selection_ok (ProjectState.mk "Fight Night" None [] (Some "ghost") ∅).
Proof.
  split; [vm_compute; reflexivity|].
  intros H. specialize (H "ghost" eq_refl). discriminate.
Qed.

(** C9. On a stored project [p], [/select] with a non-empty id stores
    that id as the selection when some highlight of [p] has it, and answers
    404 "Highlight not found", the file untouched, when none has; the empty
    id is answered 400 "highlight_id is required", the file untouched,
    whatever the highlights are. *)
Theorem select_highlight_spec (L : Pydantic.Lax) (disk : App.Disk)
    (p : ProjectState.t) (hid : string) :
  App.load_project_state L disk = Some p ->
  (hid = "" ->
   App.select_highlight L disk (Some hid) = (App.Reply_ 400 "highlight_id is required", disk))
  /\ (hid <> "" ->
      (exists h, h ∈ ProjectState.highlights p /\ Highlight.id h = hid) ->
      App.select_highlight L disk (Some hid) =
        (App.Reply_ 200 "Highlight selected",
         App.save_project_state (ProjectState.set_selected_highlight_id (Some hid) p)))
  /\ (hid <> "" ->
      Forall (fun h => Highlight.id h <> hid) (ProjectState.highlights p) ->
      App.select_highlight L disk (Some hid) = (App.Reply_ 404 "Highlight not found", disk)).
Proof.
  intros Hload. unfold App.select_highlight. split_and!.
  - intros ->. done.
  - intros Hne Hex. rewrite decide_False, Hload by done.
    rewrite bool_decide_eq_true_2; [done|]. by apply Exists_exists.
  - intros Hne Hall. rewrite decide_False, Hload by done.
    rewrite bool_decide_eq_false_2; [done|].
    intros (h & Hin & Hh)%Exists_exists.
    by apply (proj1 (Forall_forall _ _) Hall h Hin).
Qed.

Lemma select_highlight_spec_witness :
  App.select_highlight Pydantic.strict (App.save_project_state (Sample.unselected "h1")) (Some "h1")
    = (App.Reply_ 200 "Highlight selected", App.save_project_state (Sample.solo "h1"))
  /\ App.select_highlight Pydantic.strict (App.save_project_state (Sample.unselected "h1")) (Some "h2")
    = (App.Reply_ 404 "Highlight not found", App.save_project_state (Sample.unselected "h1")).
Proof.
  assert (Hr : ProjectState.ranges_ok (Sample.unselected "h1")) by repeat constructor.
  pose proof (load_save Pydantic.strict _ strict_native Hr) as Hload.
  split.
  - apply (proj1 (proj2 (select_highlight_spec _ _ _ "h1" Hload))); [discriminate|].
    exists (Sample.jab "h1"). split; [apply list_elem_of_here | reflexivity].
  - apply (proj2 (proj2 (select_highlight_spec _ _ _ "h2" Hload))); [discriminate|].
    repeat constructor. discriminate.
Defined.

(** A highlight whose id is the empty string cannot be selected through
    the route. *)
Lemma select_highlight_empty_id :
  App.load_project_state Pydantic.strict (App.save_project_state (Sample.unselected ""))
    = Some (Sample.unselected "")
  /\ Sample.jab "" ∈ ProjectState.highlights (Sample.unselected "")
  /\ Highlight.id (Sample.jab "") = ""
  /\ App.select_highlight Pydantic.strict (App.save_project_state (Sample.unselected "")) (Some "")
     = (App.Reply_ 400 "highlight_id is required",
        App.save_project_state (Sample.unselected "")).
Proof.
  split_and!.
  - apply load_save; [exact strict_native | repeat constructor].
  - apply list_elem_of_here.
  - reflexivity.
  - reflexivity.
Qed.

Lemma TimeRange_new_max0 (x e : float) :
  (gt e (max0 x) = true -> TimeRange.new (max0 x) e = Ok (TimeRange.mk (max0 x) e))
  /\ (gt e (max0 x) = false -> TimeRange.new (max0 x) e = Raise ValidationError).
Proof.
  split; intros H.
  - apply TimeRange_new_ok_iff. split_and!; [done | apply max0_ge_zero | done].
  - apply TimeRange_new_raise. intros [_ H']. congruence.
Qed.

Lemma list_insert_middle_eq {A : Type} (l1 l2 : list A) (x y : A) :
  <[length l1 := y]> (l1 ++ x :: l2) = l1 ++ y :: l2.
Proof. rewrite insert_app_r_alt, Nat.sub_diag by done. reflexivity. Qed.

(** C4. [/nudge] moves the highlight [get_selected_highlight()] returns,
    the first one whose id is the non-empty selection, and no other.  With
    [start, end) its range: the new start is [start + offset] when that is
    above zero and 0.0 when it is not, the new end is [end + offset]; when
    the new end is above the new start the highlight gets that range, keeps
    its id, name, description and tags, stays where it is in the list, and
    the project, otherwise unchanged, is saved; when it is not, building the
    range raises a validation error, the route answers 400 and the file,
    hence the range, stays as it was.  When [get_selected_highlight()]
    returns nothing, no highlight is moved and the answer is 400. *)
Theorem nudge_spec (L : Pydantic.Lax) (disk : App.Disk) (p : ProjectState.t)
    (offset : float) :
  App.load_project_state L disk = Some p ->
  (ProjectState.get_selected_highlight p = None ->
   App.nudge L disk (Some offset) = (App.Reply_ 400 "No highlight selected", disk))
  /\ (forall (sel : string) (l1 l2 : list Highlight.t) (h : Highlight.t),
      ProjectState.selected_highlight_id p = Some sel ->
      sel <> "" ->
      ProjectState.highlights p = l1 ++ h :: l2 ->
      Forall (fun x => Highlight.id x <> sel) l1 ->
      Highlight.id h = sel ->
      let shifted := add (TimeRange.start (Highlight.time_range h)) offset in
      let new_start := if gt shifted zero then shifted else zero in
      let new_end := add (TimeRange.end_ (Highlight.time_range h)) offset in
      (gt new_end new_start = true ->
         TimeRange.new new_start new_end = Ok (TimeRange.mk new_start new_end)
         /\ App.nudge L disk (Some offset) =
              (App.Reply_ 200 "Highlight nudged",
               App.save_project_state
                 (ProjectState.mk (ProjectState.project_name p)
                    (ProjectState.video_file p)
                    (l1 ++ Highlight.mk (Highlight.id h) (Highlight.name h)
                             (TimeRange.mk new_start new_end)
                             (Highlight.description h) (Highlight.tags h) :: l2)
                    (ProjectState.selected_highlight_id p)
                    (ProjectState.export_settings p))))
      /\ (gt new_end new_start = false ->
         TimeRange.new new_start new_end = Raise ValidationError
         /\ App.nudge L disk (Some offset) =
              (App.Reply_ 400 "Invalid nudge operation", disk))).
Proof.
  intros Hload. split.
  - unfold ProjectState.get_selected_highlight, App.nudge. rewrite Hload.
    by destruct (ProjectState.selected_slot p).
  - intros sel l1 l2 h Hs Hne Hl Hl1 Hh shifted new_start new_end.
    assert (Hslot : ProjectState.selected_slot p = Some (length l1, h)).
    { unfold ProjectState.selected_slot. rewrite Hs, decide_False by done.
      by apply (scan_first p sel l1 l2 h). }
    change new_start with (max0 shifted).
    destruct (TimeRange_new_max0 shifted new_end) as [Hok Hbad].
    unfold App.nudge. change (default (of_Z 1) (Some offset)) with offset.
    rewrite Hload, Hslot. cbv zeta. fold shifted new_end.
    split; intros Hgt.
    + rewrite (Hok Hgt). split; [reflexivity|].
      by rewrite Hl, list_insert_middle_eq.
    + rewrite (Hbad Hgt). split; reflexivity.
Qed.

Lemma nudge_spec_witness :
  App.nudge Pydantic.strict (App.save_project_state (Sample.ranged 10 20)) (Some (of_Z 2))
    = (App.Reply_ 200 "Highlight nudged", App.save_project_state (Sample.ranged 12 22))
  /\ App.nudge Pydantic.strict (App.save_project_state (Sample.ranged 10 20)) (Some (of_Z (-15)))
    = (App.Reply_ 200 "Highlight nudged", App.save_project_state (Sample.ranged 0 5))
  /\ App.nudge Pydantic.strict (App.save_project_state (Sample.ranged 10 12)) (Some (of_Z (-15)))
    = (App.Reply_ 400 "Invalid nudge operation", App.save_project_state (Sample.ranged 10 12))
  /\ App.nudge Pydantic.strict
       (App.save_project_state
          (ProjectState.set_selected_highlight_id None (Sample.ranged 10 20)))
       (Some (of_Z 2))
    = (App.Reply_ 400 "No highlight selected",
       App.save_project_state
         (ProjectState.set_selected_highlight_id None (Sample.ranged 10 20))).
Proof.
  assert (Hr : forall e, e = 12 \/ e = 20 -> ProjectState.ranges_ok (Sample.ranged 10 e)).
  { intros e [-> | ->]; repeat constructor. }
  assert (Hne : "h1" <> "") by discriminate.
  pose proof (load_save Pydantic.strict _ strict_native (Hr 20 (or_intror eq_refl))) as H20.
  pose proof (load_save Pydantic.strict _ strict_native (Hr 12 (or_introl eq_refl))) as H12.
  assert (Hnone : App.load_project_state Pydantic.strict
                    (App.save_project_state
                       (ProjectState.set_selected_highlight_id None (Sample.ranged 10 20)))
                  = Some (ProjectState.set_selected_highlight_id None (Sample.ranged 10 20))).
  { apply load_save; [exact strict_native | repeat constructor]. }
  split_and!.
  - exact (proj2 (proj1 (proj2 (nudge_spec Pydantic.strict _ (Sample.ranged 10 20) (of_Z 2) H20)
                    "h1" [] [] _ eq_refl Hne eq_refl (Forall_nil_2 _) eq_refl) eq_refl)).
  - exact (proj2 (proj1 (proj2 (nudge_spec Pydantic.strict _ (Sample.ranged 10 20) (of_Z (-15)) H20)
                    "h1" [] [] _ eq_refl Hne eq_refl (Forall_nil_2 _) eq_refl) eq_refl)).
  - exact (proj2 (proj2 (proj2 (nudge_spec Pydantic.strict _ (Sample.ranged 10 12) (of_Z (-15)) H12)
                    "h1" [] [] _ eq_refl Hne eq_refl (Forall_nil_2 _) eq_refl) eq_refl)).
  - exact (proj1 (nudge_spec Pydantic.strict _ _ (of_Z 2) Hnone) eq_refl).
Defined.

(** A selected highlight whose id is the empty string is never moved,
    although the shifted range, here from [5.0, 15.0) to [6.0, 16.0), would
    be a valid one. *)
Lemma nudge_empty_id :
  App.load_project_state Pydantic.strict (App.save_project_state (Sample.solo ""))
    = Some (Sample.solo "")
  /\ ProjectState.highlights (Sample.solo "") = [Sample.jab ""]
  /\ ProjectState.selected_highlight_id (Sample.solo "") = Some (Highlight.id (Sample.jab ""))
  /\ Highlight.time_range (Sample.jab "") = TimeRange.mk (of_Z 5) (of_Z 15)
  /\ TimeRange.new (max0 (add (of_Z 5) (of_Z 1))) (add (of_Z 15) (of_Z 1))
     = Ok (TimeRange.mk (of_Z 6) (of_Z 16))
  /\ App.nudge Pydantic.strict (App.save_project_state (Sample.solo "")) (Some (of_Z 1))
     = (App.Reply_ 400 "No highlight selected", App.save_project_state (Sample.solo "")).
Proof.
  assert (Hload : App.load_project_state Pydantic.strict
                    (App.save_project_state (Sample.solo "")) = Some (Sample.solo "")).
  { apply load_save; [exact strict_native | repeat constructor]. }
  split_and!;
    first [exact Hload | reflexivity | (unfold App.nudge; rewrite Hload; reflexivity)].
Qed.

(** ** The tests of [tests/test_core.py] and the examples of the
    specification, replayed on the model *)

Section Tests.

(** [max(0, 10.0 - 15.0) = 0.0], [12.0 - 15.0 = -3.0], [20.0 - 15.0 = 5.0]. *)
Example nudge_arithmetic :
  max0 (add (of_Z 10) (of_Z (-15))) = zero
  /\ add (of_Z 12) (of_Z (-15)) = of_Z (-3)
  /\ add (of_Z 20) (of_Z (-15)) = of_Z 5.
Proof. split_and!; vm_compute; reflexivity. Qed.

(** The dump of the project of [test_project_state_serialization]. *)
Example serialization_project_dump :
  ProjectState.model_dump Sample.serialization_project =
  JDict (<["project_name" := JStr "Serialization Test"]>
        (<["video_file" :=
             JDict (<["path" := JStr "/test/video.mp4"]>
                   (<["duration" := JFloat (of_Z 60)]>
                   (<["fps" := JNull]>
                   (<["width" := JNull]>
                   (<["height" := JNull]> ∅)))))]>
        (<["highlights" := JList [
             JDict (<["id" := JStr "serialize-test"]>
                   (<["name" := JStr "Serialization Highlight"]>
                   (<["time_range" :=
                        JDict (<["start" := JFloat (of_Z 10)]>
                              (<["end" := JFloat (of_Z 25)]> ∅))]>
                   (<["description" := JStr "Test serialization"]>
                   (<["tags" := JList []]> ∅)))))]]>
        (<["selected_highlight_id" := JNull]>
        (<["export_settings" := JDict ∅]> ∅))))).
Proof. reflexivity. Qed.

Example test_time_range_validation :
  TimeRange.new (of_Z 10) (of_Z 20) = Ok (TimeRange.mk (of_Z 10) (of_Z 20))
  /\ TimeRange.new (of_Z 20) (of_Z 10) = Raise ValidationError
  /\ TimeRange.new (of_Z 10) (of_Z 10) = Raise ValidationError.
Proof. split_and!; vm_compute; reflexivity. Qed.

Example test_project_state :
  let project := ProjectState.new "Test Project" in
  ProjectState.highlights project = []
  /\ ProjectState.selected_highlight_id project = None
  /\ let project := ProjectState.add_highlight Sample.first_highlight project in
     length (ProjectState.highlights project) = 1%nat
     /\ let project := ProjectState.set_selected_highlight_id (Some "highlight-1") project in
        ProjectState.get_selected_highlight project = Some Sample.first_highlight
        /\ let (removed, project) := ProjectState.remove_highlight "highlight-1" project in
           removed = true
           /\ ProjectState.highlights project = []
           /\ ProjectState.selected_highlight_id project = None
           /\ ProjectState.get_selected_highlight project = None
           /\ fst (ProjectState.remove_highlight "non-existent" project) = false.
Proof. cbv zeta. split_and!; try reflexivity. cbn. split_and!; reflexivity. Qed.

Example test_project_state_serialization :
  ProjectState.model_validate Pydantic.strict
    (ProjectState.model_dump Sample.serialization_project)
  = Ok Sample.serialization_project.
Proof. vm_compute. reflexivity. Qed.

End Tests.

(** * Further properties of the model and of the front ends *)

(** ** The methods of [ProjectState], continued *)

Section MoreMethods.

Implicit Types (p : ProjectState.t) (h : Highlight.t) (hid sel : string).

(** X1. [get_selected_highlight()] returns a highlight [h] exactly when the
    selection is a non-empty id and [h] is the first highlight of the list
    that carries it; so what it returns is a member of the list and carries
    the selected id. *)
Theorem get_selected_highlight_iff p h :
  ProjectState.get_selected_highlight p = Some h <->
  exists sel (l1 l2 : list Highlight.t),
    ProjectState.selected_highlight_id p = Some sel
    /\ sel <> ""
    /\ ProjectState.highlights p = l1 ++ h :: l2
    /\ Forall (fun x => Highlight.id x <> sel) l1
    /\ Highlight.id h = sel.
Proof.
  split.
  - unfold ProjectState.get_selected_highlight, ProjectState.selected_slot.
    destruct (ProjectState.selected_highlight_id p) as [sel|] eqn:Hs; [|done].
    destruct (decide (sel = "")) as [|Hne]; [done|].
    destruct (first_match_cases sel (ProjectState.highlights p))
      as [(l1 & l2 & x & Hl & Hl1 & Hx) | Hnone].
    + rewrite (scan_first p sel l1 l2 x) by done. intros [= <-].
      by exists sel, l1, l2.
    + by rewrite scan_none.
  - intros (sel & l1 & l2 & Hs & Hne & Hl & Hl1 & Hh).
    by apply (get_selected_highlight_first p sel l1 l2 h).
Qed.

Lemma remove_highlight_cases p hid :
  (exists (l1 l2 : list Highlight.t) h,
      ProjectState.highlights p = l1 ++ h :: l2
      /\ Forall (fun x => Highlight.id x <> hid) l1
      /\ Highlight.id h = hid
      /\ ProjectState.remove_highlight hid p =
           (true,
            ProjectState.mk (ProjectState.project_name p) (ProjectState.video_file p)
              (l1 ++ l2)
              (if decide (ProjectState.selected_highlight_id p = Some hid)
               then None else ProjectState.selected_highlight_id p)
              (ProjectState.export_settings p)))
  \/ (Forall (fun x => Highlight.id x <> hid) (ProjectState.highlights p)
      /\ ProjectState.remove_highlight hid p = (false, p)).
Proof.
  destruct (first_match_cases hid (ProjectState.highlights p))
    as [(l1 & l2 & h & Hl & Hl1 & Hh) | Hnone].
  - left. exists l1, l2, h. split_and!; [done..|].
    by apply (remove_highlight_first p hid l1 l2 h).
  - right. split; [done|]. unfold ProjectState.remove_highlight.
    by rewrite scan_none.
Qed.

(** X2. A selection that is the id of some highlight stays so through
    [add_highlight] and through [remove_highlight]: removing the selected
    highlight clears the selection, removing another one leaves the selected
    one in the list. *)
Theorem methods_keep_selection_live p :
  Invariant.selection_live p ->
  (forall h, Invariant.selection_live (ProjectState.add_highlight h p))
  /\ (forall hid, Invariant.selection_live (ProjectState.remove_highlight hid p).2).
Proof.
  intros Hlive. split.
  - intros h sel Hs. destruct (Hlive sel Hs) as (x & Hx & Hid).
    exists x. split; [|done]. cbn. apply elem_of_app. by left.
  - intros hid.
    destruct (remove_highlight_cases p hid)
      as [(l1 & l2 & h & Hl & Hl1 & Hh & ->) | [_ ->]]; [|done].
    intros sel. cbn.
    destruct (decide (ProjectState.selected_highlight_id p = Some hid)) as [|Hne]; [done|].
    intros Hs. destruct (Hlive sel Hs) as (x & Hx & Hid).
    exists x. split; [|done].
    rewrite Hl in Hx. apply elem_of_app in Hx as [Hx | Hx].
    + apply elem_of_app. by left.
    + apply elem_of_cons in Hx as [-> | Hx].
      * congruence.
      * apply elem_of_app. by right.
Qed.

(** X3. When no two highlights share an id, [remove_highlight(id)] leaves
    no highlight with that id behind, and the ids stay unique. *)
Theorem remove_highlight_unique_ids p hid :
  Invariant.unique_ids p ->
  Invariant.unique_ids (ProjectState.remove_highlight hid p).2
  /\ Forall (fun x => Highlight.id x <> hid)
       (ProjectState.highlights (ProjectState.remove_highlight hid p).2).
Proof.
  unfold Invariant.unique_ids. intros Hnd.
  destruct (remove_highlight_cases p hid)
    as [(l1 & l2 & h & Hl & Hl1 & Hh & ->) | [Hnone ->]]; [|done].
  cbn. rewrite Hl, fmap_app, fmap_cons in Hnd.
  apply NoDup_app in Hnd as (Hn1 & Hdisj & Hn2).
  apply NoDup_cons in Hn2 as [Hnotin Hn2].
  split.
  - rewrite fmap_app. apply NoDup_app. split_and!; [done | | done].
    intros x Hx1 Hx2. apply (Hdisj x Hx1). by right.
  - apply Forall_app. split; [done|].
    apply Forall_forall. intros x Hx Hid. apply Hnotin.
    rewrite Hh, <- Hid. by apply list_elem_of_fmap_2.
Qed.

(** X4. [remove_highlight(id)] keeps every highlight of another id, in
    order; it shortens the list by exactly one when it returns [True],
    changes nothing when it returns [False], and never touches the name,
    the video file or the export settings. *)
Theorem remove_highlight_keeps_others p hid :
  let r := ProjectState.remove_highlight hid p in
  filter (fun x => Highlight.id x <> hid) (ProjectState.highlights r.2)
    = filter (fun x => Highlight.id x <> hid) (ProjectState.highlights p)
  /\ (r.1 = true ->
      S (length (ProjectState.highlights r.2)) = length (ProjectState.highlights p))
  /\ (r.1 = false -> r.2 = p)
  /\ ProjectState.project_name r.2 = ProjectState.project_name p
  /\ ProjectState.video_file r.2 = ProjectState.video_file p
  /\ ProjectState.export_settings r.2 = ProjectState.export_settings p.
Proof.
  cbv zeta.
  destruct (remove_highlight_cases p hid)
    as [(l1 & l2 & h & Hl & Hl1 & Hh & ->) | [Hnone ->]]; [|done].
  cbn. split_and!; try done.
  - rewrite Hl, !filter_app, filter_cons_False; [done|]. by intros [].
  - intros _. rewrite Hl, !length_app. cbn. lia.
Qed.

(** X5. Adding a highlight whose id is not in use and removing that id
    again gives the project back; only a selection that already was that id,
    and so pointed at nothing, is cleared. *)
Theorem add_then_remove p h :
  Forall (fun x => Highlight.id x <> Highlight.id h) (ProjectState.highlights p) ->
  ProjectState.remove_highlight (Highlight.id h) (ProjectState.add_highlight h p)
  = (true,
     if decide (ProjectState.selected_highlight_id p = Some (Highlight.id h))
     then ProjectState.set_selected_highlight_id None p
     else p).
Proof.
  intros Hfresh.
  rewrite (remove_highlight_first (ProjectState.add_highlight h p) (Highlight.id h)
             (ProjectState.highlights p) [] h); [|done..].
  cbn. rewrite app_nil_r.
  destruct (decide (ProjectState.selected_highlight_id p = Some (Highlight.id h)));
    by destruct p.
Qed.

End MoreMethods.

(** ** What the routes keep *)

Section Keeping.

Context (L : Pydantic.Lax).

Lemma load_ranges_ok (disk : App.Disk) (p : ProjectState.t) :
  App.load_project_state L disk = Some p -> ProjectState.ranges_ok p.
Proof.
  unfold App.load_project_state. destruct disk as [data|]; [|done].
  destruct (ProjectState.model_validate L data) as [q|] eqn:Hq; [|done].
  intros [= <-].
  apply ProjectState_model_validate_highlights in Hq as (d & entries & _ & _ & Hall).
  unfold ProjectState.ranges_ok. revert Hall.
  generalize (ProjectState.highlights q). intros hs Hall.
  induction Hall as [|x h entries hs Hx _ IH]; constructor; [|done].
  by apply (Highlight_model_validate_invariant L x).
Qed.

Lemma selection_live_ids (p : ProjectState.t) :
  Invariant.selection_live p <->
  forall sel, ProjectState.selected_highlight_id p = Some sel ->
    sel ∈ Highlight.id <$> ProjectState.highlights p.
Proof.
  unfold Invariant.selection_live. split; intros H sel Hs.
  - destruct (H sel Hs) as (h & Hh & <-). by apply list_elem_of_fmap_2.
  - pose proof (H sel Hs) as Hin.
    apply list_elem_of_fmap in Hin as (h & -> & Hh). eauto.
Qed.

Lemma kept_refl (disk : App.Disk) : Invariant.kept L disk disk.
Proof. intros p Hp Hlive. exists p. by split_and!. Qed.

Lemma kept_unloadable (disk disk' : App.Disk) :
  App.load_project_state L disk = None -> Invariant.kept L disk disk'.
Proof. intros Hnone p Hp. congruence. Qed.

Lemma slot_lookup (p : ProjectState.t) (i : nat) (h : Highlight.t) :
  ProjectState.selected_slot p = Some (i, h) ->
  ProjectState.highlights p !! i = Some h.
Proof.
  unfold ProjectState.selected_slot, ProjectState.scan.
  destruct (ProjectState.selected_highlight_id p) as [sel|]; [|done].
  destruct (decide (sel = "")); [done|].
  by intros (? & _)%list_find_Some.
Qed.

(** Assigning a new range to the highlight in a slot changes no id. *)
Lemma ids_set_time_range (hs : list Highlight.t) (i : nat) (h : Highlight.t)
    (r : TimeRange.t) :
  hs !! i = Some h ->
  Highlight.id <$> <[i := Highlight.set_time_range r h]> hs = Highlight.id <$> hs.
Proof.
  intros Hi. rewrite list_fmap_insert. cbn.
  apply list_insert_id. by rewrite list_lookup_fmap, Hi.
Qed.

Context (HN : Pydantic.Native L).

Lemma kept_save (disk : App.Disk) (p p' : ProjectState.t) :
  App.load_project_state L disk = Some p ->
  ProjectState.ranges_ok p' ->
  ProjectState.project_name p' = ProjectState.project_name p ->
  ProjectState.selected_highlight_id p' = ProjectState.selected_highlight_id p
  \/ (exists sel, ProjectState.selected_highlight_id p' = Some sel
        /\ sel ∈ Highlight.id <$> ProjectState.highlights p') ->
  (Highlight.id <$> ProjectState.highlights p)
    `prefix_of` (Highlight.id <$> ProjectState.highlights p') ->
  Invariant.kept L disk (App.save_project_state p').
Proof.
  intros Hp Hr Hname Hsel Hpre q Hq Hlive.
  assert (q = p) as -> by congruence.
  exists p'. split_and!; [by apply load_save | | done..].
  apply selection_live_ids. intros sel Hs.
  destruct Hsel as [Hsame | (sel' & Hs' & Hin)].
  - rewrite Hsame in Hs.
    pose proof (proj1 (selection_live_ids p) Hlive sel Hs) as Hin.
    destruct Hpre as [k ->]. apply elem_of_app. by left.
  - congruence.
Qed.

Lemma kept_replace_range (disk : App.Disk) (p : ProjectState.t) (i : nat)
    (h : Highlight.t) (r : TimeRange.t) :
  App.load_project_state L disk = Some p ->
  ProjectState.selected_slot p = Some (i, h) ->
  TimeRange.invariant r ->
  Invariant.kept L disk
    (App.save_project_state
       (ProjectState.set_highlights
          (<[i := Highlight.set_time_range r h]> (ProjectState.highlights p)) p)).
Proof.
  intros Hp Hslot Hr. apply (kept_save disk p); [done | | done | by left |].
  - unfold ProjectState.ranges_ok. cbn.
    apply Forall_insert; [exact (load_ranges_ok disk p Hp) | done].
  - cbn. by rewrite (ids_set_time_range _ i h r) by (by apply slot_lookup).
Qed.

Lemma import_each_Ok (data : list json) : forall (p p' : ProjectState.t),
  Routes.import_each L data p = Ok p' <->
  exists hs,
    Forall2 (fun j h => Highlight.model_validate L j = Ok h) data hs
    /\ p' = ProjectState.set_highlights (ProjectState.highlights p ++ hs) p.
Proof.
  induction data as [|j data IH]; intros p p'; cbn [Routes.import_each].
  - split.
    + intros [= <-]. exists []. split; [constructor|].
      rewrite app_nil_r. by destruct p.
    + intros (hs & Hall & ->). inversion Hall. rewrite app_nil_r. by destruct p.
  - split.
    + intros (h & Hh & (hs & Hall & ->)%IH)%bind_Ok.
      exists (h :: hs). split; [by constructor|].
      cbn. by rewrite <- app_assoc.
    + intros (hs & Hall & ->). inversion Hall as [|? h ? hs' Hh Hall']; subst.
      rewrite Hh. cbn. apply IH. exists hs'. split; [done|].
      cbn. by rewrite <- app_assoc.
Qed.

Lemma import_each_Raise (data : list json) : forall (p : ProjectState.t),
  Exists (fun j => Highlight.model_validate L j = Raise ValidationError) data ->
  Routes.import_each L data p = Raise ValidationError.
Proof.
  intros p Hex.
  destruct (Routes.import_each L data p) as [p'|[]] eqn:Hp; [|done].
  apply import_each_Ok in Hp as (hs & Hall & _).
  apply Exists_exists in Hex as (j & Hj & Hbad).
  destruct (proj1 (list_elem_of_lookup _ _) Hj) as [i Hi].
  destruct (Forall2_lookup_l _ _ _ _ _ Hall Hi) as (h & _ & Hh). congruence.
Qed.

(** X6. Whatever the request, each of the five routes that write the file
    ([/select], [/nudge], [/update-range], [/import/video],
    [/import/highlights]) turns a file that loads, with a selection that
    belongs to a highlight, into one that loads again, with such a selection,
    under the same project name and with the former highlights still first
    in the list under their ids: no route deletes a highlight, renames the
    project or leaves a file that cannot be read. *)
Theorem routes_keep_the_project (disk : App.Disk) :
  (forall hid, Invariant.kept L disk (App.select_highlight L disk hid).2)
  /\ (forall offset, Invariant.kept L disk (App.nudge L disk offset).2)
  /\ (forall s e, Invariant.kept L disk (Routes.update_range L disk s e).2)
  /\ (forall path, Invariant.kept L disk (Routes.import_video L disk path).2)
  /\ (forall data, Invariant.kept L disk (Routes.import_highlights L disk data).2).
Proof.
  split_and!.
  - intros [hid|]; [|apply kept_refl]. unfold App.select_highlight.
    destruct (decide (hid = "")); [apply kept_refl|].
    destruct (App.load_project_state L disk) as [p|] eqn:Hp; [|apply kept_refl].
    case_bool_decide as Hex; [|apply kept_refl].
    apply (kept_save disk p); [done | exact (load_ranges_ok disk p Hp) | done | | done].
    right. exists hid. split; [done|].
    apply Exists_exists in Hex as (h & Hh & <-). by apply list_elem_of_fmap_2.
  - intros offset. unfold App.nudge.
    destruct (App.load_project_state L disk) as [p|] eqn:Hp; [|apply kept_refl].
    destruct (ProjectState.selected_slot p) as [[i h]|] eqn:Hslot; [|apply kept_refl].
    cbv zeta.
    destruct (TimeRange.new _ _) as [r|] eqn:Hr; [|apply kept_refl].
    apply kept_replace_range; [done..|].
    apply TimeRange_new_ok_iff in Hr as (-> & ? & ?). by split.
  - intros s e. unfold Routes.update_range.
    destruct (Routes.is_None s || Routes.is_None e); [apply kept_refl|].
    destruct (App.load_project_state L disk) as [p|] eqn:Hp; [|apply kept_refl].
    destruct (ProjectState.selected_slot p) as [[i h]|] eqn:Hslot; [|apply kept_refl].
    destruct (Routes.TimeRange_of L _ _) as [r|] eqn:Hr; [|apply kept_refl].
    apply kept_replace_range; [done..|].
    by apply (TimeRange_model_validate_invariant L _ r Hr).
  - intros [path|]; [|apply kept_refl]. unfold Routes.import_video.
    destruct (decide (path = "")); [apply kept_refl|]. cbn.
    destruct (App.load_project_state L disk) as [p|] eqn:Hp;
      [|by apply kept_unloadable].
    unfold Routes.load_or_new. rewrite Hp.
    apply (kept_save disk p); [done | exact (load_ranges_ok disk p Hp) | done | by left | done].
  - intros data. unfold Routes.import_highlights.
    destruct (App.load_project_state L disk) as [p|] eqn:Hp;
      [|by apply kept_unloadable].
    unfold Routes.load_or_new. rewrite Hp. cbv zeta.
    destruct (Routes.import_each L (default [] data) p) as [p'|] eqn:Hp';
      [|apply kept_refl].
    apply import_each_Ok in Hp' as (hs & Hall & ->).
    apply (kept_save disk p); [done | | done | by left |].
    + unfold ProjectState.ranges_ok. cbn. apply Forall_app. split.
      * exact (load_ranges_ok disk p Hp).
      * clear Hp. induction Hall as [|j h data' hs Hj _ IH]; constructor; [|done].
        by apply (Highlight_model_validate_invariant L j).
    + cbn. rewrite fmap_app. by apply prefix_app_r.
Qed.

End Keeping.

(** ** The other routes *)

Section MoreRoutes.

Context (L : Pydantic.Lax).

Lemma TimeRange_of_unfold (js je : json) :
  Routes.TimeRange_of L js je =
  (s ← Pydantic.float_ L js; e ← Pydantic.float_ L je; TimeRange.new s e).
Proof.
  unfold Routes.TimeRange_of, TimeRange.model_validate.
  cbn [Pydantic.dict mbind result_bind]. unfold Pydantic.required.
  rewrite lookup_insert_eq, lookup_insert_ne, lookup_insert_eq by done.
  reflexivity.
Qed.

Lemma is_None_Some (j : json) : j <> JNull -> Routes.is_None (Some j) = false.
Proof. by destruct j. Qed.

(** X7. [/update-range]: a missing or null [start] or [end] is answered 400
    before the file is read.  With a selected highlight and two values the
    float field accepts as [s] and [e], the range of that highlight, and of
    no other, becomes [s, e) when [s >= 0] and [e > s]; otherwise, and when
    a value is no number, the answer is 400 "Invalid time range" and the
    file is untouched. *)
Theorem update_range_spec (disk : App.Disk) :
  (forall start end_ : option json,
      Routes.is_None start = true \/ Routes.is_None end_ = true ->
      Routes.update_range L disk start end_ =
        (App.Reply_ 400 "start and end times are required", disk))
  /\ (forall (p : ProjectState.t) (i : nat) (h : Highlight.t) (js je : json),
      App.load_project_state L disk = Some p ->
      ProjectState.selected_slot p = Some (i, h) ->
      js <> JNull -> je <> JNull ->
      (forall s e : float,
          Pydantic.to_float L js = Some s -> Pydantic.to_float L je = Some e ->
          ge s zero = true -> gt e s = true ->
          Routes.update_range L disk (Some js) (Some je) =
            (App.Reply_ 200 "Time range updated",
             App.save_project_state
               (ProjectState.set_highlights
                  (<[i := Highlight.set_time_range (TimeRange.mk s e) h]>
                     (ProjectState.highlights p)) p)))
      /\ (forall s e : float,
          Pydantic.to_float L js = Some s -> Pydantic.to_float L je = Some e ->
          ~ (ge s zero = true /\ gt e s = true) ->
          Routes.update_range L disk (Some js) (Some je) =
            (App.Reply_ 400 "Invalid time range", disk))
      /\ (Pydantic.to_float L js = None \/ Pydantic.to_float L je = None ->
          Routes.update_range L disk (Some js) (Some je) =
            (App.Reply_ 400 "Invalid time range", disk))).
Proof.
  split.
  - intros start end_ H. unfold Routes.update_range.
    destruct H as [-> | ->]; [done|]. by rewrite orb_true_r.
  - intros p i h js je Hp Hslot Hjs Hje. unfold Routes.update_range.
    rewrite !is_None_Some, Hp, Hslot by done. cbn [orb default from_option id].
    change (id js) with js. change (id je) with je.
    rewrite TimeRange_of_unfold. unfold Pydantic.float_. split_and!.
    + intros s e -> -> Hs He. cbn.
      by rewrite (proj2 (TimeRange_new_ok_iff s e (TimeRange.mk s e))).
    + intros s e -> -> Hbad. cbn. by rewrite TimeRange_new_raise.
    + intros [-> | ->]; [done|]. by destruct (Pydantic.to_float L js).
Qed.

(** X8. [/import/highlights] is all or nothing: when every item is a valid
    highlight they are appended, in order, to the stored project (a new
    project "New Project" when none loads); when one item is invalid the
    answer is 400 and the file is untouched, whatever came before that
    item.  Without the key the project is saved as it is. *)
Theorem import_highlights_spec (disk : App.Disk) :
  let p0 := Routes.load_or_new L disk in
  (forall (data : list json) (hs : list Highlight.t),
      Forall2 (fun j h => Highlight.model_validate L j = Ok h) data hs ->
      Routes.import_highlights L disk (Some data) =
        (App.Reply_ 200 "Imported highlights",
         App.save_project_state
           (ProjectState.set_highlights (ProjectState.highlights p0 ++ hs) p0)))
  /\ (forall data : list json,
      Exists (fun j => Highlight.model_validate L j = Raise ValidationError) data ->
      Routes.import_highlights L disk (Some data) =
        (App.Reply_ 400 "Invalid highlight data", disk))
  /\ Routes.import_highlights L disk None =
       (App.Reply_ 200 "Imported highlights", App.save_project_state p0).
Proof.
  intros p0. unfold Routes.import_highlights. fold p0. split_and!.
  - intros data hs Hall. cbn [default from_option id].
    change (id data) with data.
    by rewrite (proj2 (import_each_Ok L data p0 _) (ex_intro _ hs (conj Hall eq_refl))).
  - intros data Hex. cbn [default from_option id]. change (id data) with data.
    by rewrite import_each_Raise.
  - reflexivity.
Qed.

Context (HN : Pydantic.Native L).

Lemma load_or_new_ranges_ok (disk : App.Disk) :
  ProjectState.ranges_ok (Routes.load_or_new L disk).
Proof.
  unfold Routes.load_or_new.
  destruct (App.load_project_state L disk) as [p|] eqn:Hp.
  - exact (load_ranges_ok L disk p Hp).
  - constructor.
Qed.

(** X9. [/import/video]: no path or an empty path is answered 400 and
    the file is untouched.  Any other path replaces the video file by one
    with that path and no duration, fps, width or height, keeps name,
    highlights, selection and export settings, and the file then loads as
    that project; when the file did not load, the project is a new
    "New Project". *)
Theorem import_video_spec (disk : App.Disk) :
  Routes.import_video L disk None = (App.Reply_ 400 "Video path is required", disk)
  /\ Routes.import_video L disk (Some "") = (App.Reply_ 400 "Video path is required", disk)
  /\ (forall path : string, path <> "" ->
      let p0 := Routes.load_or_new L disk in
      let p' :=
        ProjectState.mk (ProjectState.project_name p0)
          (Some (VideoFile.mk path None None None None))
          (ProjectState.highlights p0) (ProjectState.selected_highlight_id p0)
          (ProjectState.export_settings p0) in
      Routes.import_video L disk (Some path) =
        (App.Reply_ 200 "Video imported successfully", App.save_project_state p')
      /\ App.load_project_state L (Routes.import_video L disk (Some path)).2 = Some p'
      /\ (App.load_project_state L disk = None -> p0 = ProjectState.new "New Project")
      /\ (forall p, App.load_project_state L disk = Some p -> p0 = p)).
Proof.
  split_and!; [done..|].
  intros path Hne p0 p'.
  assert (Heq : Routes.import_video L disk (Some path) =
                (App.Reply_ 200 "Video imported successfully", App.save_project_state p')).
  { unfold Routes.import_video. by rewrite decide_False by done. }
  split_and!.
  - done.
  - rewrite Heq. apply load_save; [done|]. exact (load_or_new_ranges_ok disk).
  - intros Hnone. unfold p0, Routes.load_or_new. by rewrite Hnone.
  - intros p Hp. unfold p0, Routes.load_or_new. by rewrite Hp.
Qed.

(** X10. The document [/state] returns loads as the project the file
    loads as, and asking [/state] of that document returns it again; the
    route answers 404 exactly when the file does not load. *)
Theorem get_state_reloads (disk : App.Disk) :
  (forall doc, Routes.get_state L disk = inr doc ->
     App.load_project_state L (Some doc) = App.load_project_state L disk
     /\ Routes.get_state L (Some doc) = inr doc)
  /\ (App.load_project_state L disk = None <->
      Routes.get_state L disk = inl (App.Reply_ 404 "No project state found")).
Proof.
  unfold Routes.get_state.
  destruct (App.load_project_state L disk) as [p|] eqn:Hp.
  - split; [|split; discriminate].
    intros doc [= <-].
    assert (Hl : App.load_project_state L (Some (ProjectState.model_dump p)) = Some p).
    { apply (load_save L p HN). exact (load_ranges_ok L disk p Hp). }
    by rewrite Hl.
  - split; [discriminate | done].
Qed.

(** X11. After [/select] of a non-empty id that some highlight has, the
    file loads with the first highlight of that id as the selected one and
    the same list of highlights, and [/export/clip] then names the clip of
    that highlight when a video file is set and answers 400
    "No video file loaded" when none is. *)
Theorem select_then_export (disk : App.Disk) (p : ProjectState.t) (hid : string)
    (l1 l2 : list Highlight.t) (h : Highlight.t) :
  App.load_project_state L disk = Some p ->
  hid <> "" ->
  ProjectState.highlights p = l1 ++ h :: l2 ->
  Forall (fun x => Highlight.id x <> hid) l1 ->
  Highlight.id h = hid ->
  let disk' := (App.select_highlight L disk (Some hid)).2 in
  (exists p', App.load_project_state L disk' = Some p'
      /\ ProjectState.get_selected_highlight p' = Some h
      /\ ProjectState.highlights p' = ProjectState.highlights p)
  /\ Routes.export_clip L disk' =
       match ProjectState.video_file p with
       | Some _ => Routes.Initiated [Routes.output_path h]
       | None => Routes.Refused (App.Reply_ 400 "No video file loaded")
       end.
Proof.
  intros Hp Hne Hl Hl1 Hh disk'.
  set (p' := ProjectState.set_selected_highlight_id (Some hid) p).
  assert (Hd : disk' = App.save_project_state p').
  { unfold disk', App.select_highlight. rewrite decide_False, Hp by done.
    rewrite bool_decide_eq_true_2; [done|].
    apply Exists_exists. exists h. split; [|done].
    rewrite Hl. apply elem_of_app. right. apply list_elem_of_here. }
  assert (Hload : App.load_project_state L disk' = Some p').
  { rewrite Hd. apply load_save; [done|]. exact (load_ranges_ok L disk p Hp). }
  assert (Hget : ProjectState.get_selected_highlight p' = Some h).
  { by apply (get_selected_highlight_first p' hid l1 l2 h). }
  split.
  - exists p'. by split_and!.
  - unfold Routes.export_clip. rewrite Hload, Hget. reflexivity.
Qed.

(** X12. Whenever [/export/clip] names a clip, [/export/all] on the same
    file succeeds, names one clip per highlight and has that clip among
    them. *)
Theorem export_clip_in_export_all (disk : App.Disk) (path : string) :
  Routes.export_clip L disk = Routes.Initiated [path] ->
  exists (p : ProjectState.t) (paths : list string),
    App.load_project_state L disk = Some p
    /\ Routes.export_all L disk = Routes.Initiated paths
    /\ path ∈ paths
    /\ length paths = length (ProjectState.highlights p).
Proof.
  unfold Routes.export_clip, Routes.export_all.
  destruct (App.load_project_state L disk) as [p|] eqn:Hp; [|done].
  destruct (ProjectState.get_selected_highlight p) as [h|] eqn:Hget; [|done].
  destruct (ProjectState.video_file p) as [v|]; [|done].
  intros [= <-].
  apply get_selected_highlight_iff in Hget as (sel & l1 & l2 & _ & _ & Hl & _ & _).
  exists p, (Routes.output_path <$> ProjectState.highlights p).
  split_and!; [done | | | by rewrite length_fmap].
  - rewrite Hl. by destruct l1.
  - apply list_elem_of_fmap_2. rewrite Hl. apply elem_of_app. right. apply list_elem_of_here.
Qed.

End MoreRoutes.

(** ** Output paths *)

Section Paths.

Lemma string_length_app (s t : string) :
  String.length (s +:+ t) = (String.length s + String.length t)%nat.
Proof.
  induction s as [|c s IH]; [done|].
  change (S (String.length (s +:+ t)) = S (String.length s + String.length t)).
  by rewrite IH.
Qed.

Lemma string_app_inv_tail (t : string) : forall s1 s2 : string,
  s1 +:+ t = s2 +:+ t -> s1 = s2.
Proof.
  induction s1 as [|c1 s1 IH]; intros [|c2 s2] H.
  - done.
  - apply (f_equal String.length) in H.
    change (String.length t = S (String.length (s2 +:+ t))) in H.
    rewrite string_length_app in H. lia.
  - apply (f_equal String.length) in H.
    change (S (String.length (s1 +:+ t)) = String.length t) in H.
    rewrite string_length_app in H. lia.
  - change (String c1 (s1 +:+ t) = String c2 (s2 +:+ t)) in H.
    injection H as -> H. f_equal. by apply IH.
Qed.

(** X13. Two highlights of the same name and of different ids are
    exported to different paths. *)
Theorem output_path_distinct (h1 h2 : Highlight.t) :
  Highlight.name h1 = Highlight.name h2 ->
  Highlight.id h1 <> Highlight.id h2 ->
  Routes.output_path h1 <> Routes.output_path h2.
Proof.
  intros Hname Hid Hpath. apply Hid.
  unfold Routes.output_path in Hpath. rewrite Hname in Hpath.
  apply (inj (String.app "exports/")) in Hpath.
  apply (inj (String.app (Highlight.name h2))) in Hpath.
  apply (inj (String.app "_")) in Hpath.
  by apply string_app_inv_tail in Hpath.
Qed.

End Paths.

(** ** Documents, continued *)

Section MoreDocuments.

Context (L : Pydantic.Lax).

(** X14. A document with nothing but a project name loads as the new
    project of that name: no video, no highlights, no selection, no export
    settings.  A document without the key ["project_name"], or with a value
    there that is no string, and a document that is no object, do not
    load. *)
Theorem model_validate_defaults :
  (forall name : string,
      ProjectState.model_validate L (JDict {[ "project_name" := JStr name ]})
      = Ok (ProjectState.new name))
  /\ (forall d : gmap string json,
      d !! "project_name" = None ->
      ProjectState.model_validate L (JDict d) = Raise ValidationError)
  /\ (forall (d : gmap string json) (v : json),
      d !! "project_name" = Some v -> (forall s, v <> JStr s) ->
      ProjectState.model_validate L (JDict d) = Raise ValidationError)
  /\ (forall j : json,
      (forall d, j <> JDict d) ->
      ProjectState.model_validate L j = Raise ValidationError).
Proof.
  split_and!.
  - intros name. unfold ProjectState.model_validate.
    cbn [Pydantic.dict mbind result_bind].
    unfold Pydantic.required, Pydantic.defaulted.
    rewrite lookup_singleton_eq, !lookup_singleton_ne by done. reflexivity.
  - intros d Hd. unfold ProjectState.model_validate.
    cbn [Pydantic.dict mbind result_bind]. unfold Pydantic.required. by rewrite Hd.
  - intros d v Hd Hv. unfold ProjectState.model_validate.
    cbn [Pydantic.dict mbind result_bind]. unfold Pydantic.required. rewrite Hd.
    destruct v; try done. by destruct (Hv s).
  - intros j Hj. destruct j; try done. by destruct (Hj d).
Qed.

(** X15. A key that is none of the five fields of [ProjectState] has no
    effect on loading: the document loads, or fails to, as it does without
    the key. *)
Theorem model_validate_ignores_other_keys (d : gmap string json) (k : string) (v : json) :
  k ∉ ["project_name"; "video_file"; "highlights"; "selected_highlight_id";
       "export_settings"] ->
  ProjectState.model_validate L (JDict (<[k := v]> d))
  = ProjectState.model_validate L (JDict d).
Proof.
  intros Hk. unfold ProjectState.model_validate.
  cbn [Pydantic.dict mbind result_bind].
  unfold Pydantic.required, Pydantic.defaulted.
  rewrite !lookup_insert_ne; [done|..];
    intros ->; apply Hk; repeat first [apply list_elem_of_here | apply list_elem_of_further].
Qed.

(** X16. A highlight needs ["id"], ["name"] and ["time_range"]: without
    any one of them it does not load.  The description may be absent or
    [null] (it is then [None]) and the tags may be absent (they are then
    empty), but tags that are [null] are refused. *)
Theorem Highlight_model_validate_defaults (d : gmap string json)
    (i n : string) (jr : json) (r : TimeRange.t) :
  d !! "id" = Some (JStr i) -> d !! "name" = Some (JStr n) ->
  d !! "time_range" = Some jr -> TimeRange.model_validate L jr = Ok r ->
  (d !! "description" = None \/ d !! "description" = Some JNull ->
   d !! "tags" = None ->
   Highlight.model_validate L (JDict d) = Ok (Highlight.mk i n r None []))
  /\ (d !! "tags" = Some JNull ->
      Highlight.model_validate L (JDict d) = Raise ValidationError)
  /\ (forall k, k ∈ ["id"; "name"; "time_range"] ->
      Highlight.model_validate L (JDict (delete k d)) = Raise ValidationError).
Proof.
  intros Hi Hn Hr Hv. split_and!.
  - intros Hd Ht. unfold Highlight.model_validate.
    cbn [Pydantic.dict mbind result_bind].
    unfold Pydantic.required, Pydantic.defaulted.
    rewrite Hi, Hn, Hr, Ht. cbn. rewrite Hv. cbn.
    by destruct Hd as [-> | ->].
  - intros Ht. unfold Highlight.model_validate.
    cbn [Pydantic.dict mbind result_bind].
    unfold Pydantic.required, Pydantic.defaulted.
    rewrite Hi, Hn, Hr, Ht. cbn. rewrite Hv. cbn.
    destruct (d !! "description") as [j|]; [|done].
    by destruct (Pydantic.optional Pydantic.str j) as [?|[]].
  - intros k Hk. unfold Highlight.model_validate.
    cbn [Pydantic.dict mbind result_bind]. unfold Pydantic.required.
    apply elem_of_cons in Hk as [-> | Hk].
    { by rewrite lookup_delete_eq. }
    apply elem_of_cons in Hk as [-> | Hk].
    { rewrite (lookup_delete_ne d "name" "id"), Hi by done. cbn.
      by rewrite lookup_delete_eq. }
    apply elem_of_cons in Hk as [-> | Hk]; [|by apply elem_of_nil in Hk].
    rewrite (lookup_delete_ne d "time_range" "id"), Hi by done. cbn.
    rewrite (lookup_delete_ne d "time_range" "name"), Hn by done. cbn.
    by rewrite lookup_delete_eq.
Qed.

End MoreDocuments.

(** ** The values a range can hold *)

(** X17. A range that was built has a start that is zero or a positive
    finite number and an end that is a positive finite number or plus
    infinity: never a NaN, a negative number or an infinite start. *)
Theorem TimeRange_new_bounds (s e : float) (r : TimeRange.t) :
  TimeRange.new s e = Ok r ->
  ((exists b, s = S754_zero b) \/ (exists m x, s = S754_finite false m x))
  /\ (e = S754_infinity false \/ (exists m x, e = S754_finite false m x)).
Proof.
  intros (_ & Hs & He)%TimeRange_new_ok_iff. unfold ge, gt in *.
  destruct s as [bs|[]| |[] ms xs], e as [be|[]| |[] me xe];
    cbn in Hs, He; try discriminate; (split; [|eauto]); eauto.
Qed.

(** ** The commands *)

Section CommandFacts.

Context (L : Pydantic.Lax).

Lemma load_new (name : string) :
  App.load_project_state L (App.save_project_state (ProjectState.new name))
  = Some (ProjectState.new name).
Proof.
  unfold App.load_project_state, App.save_project_state,
    ProjectState.model_validate, ProjectState.model_dump.
  cbn [Pydantic.dict mbind result_bind].
  unfold Pydantic.required, Pydantic.defaulted.
  repeat first [rewrite lookup_insert_eq | rewrite lookup_insert_ne by done].
  reflexivity.
Qed.

(** X18. [fightlight init]: declining to overwrite an existing file leaves
    it as it is.  Otherwise the file loads as the new project of the given
    name, whatever it held before, and for that file
    [fightlight highlights] finds no highlights and [/export/all] has
    nothing to export. *)
Theorem init_spec (file_exists overwrite : bool) (name : string) (disk : App.Disk) :
  (file_exists = true -> overwrite = false ->
   Commands.init file_exists overwrite name disk = disk)
  /\ (file_exists = false \/ overwrite = true ->
      let disk' := Commands.init file_exists overwrite name disk in
      App.load_project_state L disk' = Some (ProjectState.new name)
      /\ Commands.highlights L disk' = Commands.NoHighlights
      /\ Routes.export_all L disk' = Routes.Refused (App.Reply_ 400 "No highlights to export")).
Proof.
  split.
  - by intros -> ->.
  - intros H disk'.
    assert (Hd : disk' = App.save_project_state (ProjectState.new name)).
    { unfold disk', Commands.init. destruct H as [-> | ->]; [done|]. by rewrite andb_false_r. }
    rewrite Hd. unfold Commands.highlights, Routes.export_all.
    rewrite load_new. by split_and!.
Qed.

Lemma highlights_loaded (disk : App.Disk) (p : ProjectState.t) :
  App.load_project_state L disk = Some p ->
  ProjectState.highlights p <> [] ->
  Commands.highlights L disk = Commands.Table (Commands.row p <$> ProjectState.highlights p).
Proof.
  intros Hp Hne. unfold Commands.highlights. rewrite Hp.
  by destruct (ProjectState.highlights p).
Qed.

(** X19. The table of [fightlight highlights] has one row per highlight,
    in order, with its id and name; a row is checked exactly when its id is
    the selection; the highlight [get_selected_highlight()] returns has a
    checked row; and when ids are unique at most one row is checked. *)
Theorem highlights_marks (disk : App.Disk) (p : ProjectState.t) :
  App.load_project_state L disk = Some p ->
  ProjectState.highlights p <> [] ->
  exists rows,
    Commands.highlights L disk = Commands.Table rows
    /\ length rows = length (ProjectState.highlights p)
    /\ (forall (i : nat) (h : Highlight.t),
          ProjectState.highlights p !! i = Some h ->
          exists r, rows !! i = Some r
            /\ Commands.row_id r = Highlight.id h
            /\ Commands.row_name r = Highlight.name h
            /\ (Commands.row_selected r = true <->
                ProjectState.selected_highlight_id p = Some (Highlight.id h)))
    /\ (forall h, ProjectState.get_selected_highlight p = Some h ->
          exists (i : nat) r, rows !! i = Some r
            /\ ProjectState.highlights p !! i = Some h
            /\ Commands.row_selected r = true)
    /\ (Invariant.unique_ids p ->
        forall (i j : nat) r r',
          rows !! i = Some r -> rows !! j = Some r' ->
          Commands.row_selected r = true -> Commands.row_selected r' = true ->
          i = j).
Proof.
  intros Hp Hne. exists (Commands.row p <$> ProjectState.highlights p).
  assert (Hrow : forall h,
    Commands.row_selected (Commands.row p h) = true <->
    ProjectState.selected_highlight_id p = Some (Highlight.id h)).
  { intros h. cbn. rewrite bool_decide_eq_true. split; congruence. }
  split_and!.
  - by apply highlights_loaded.
  - by rewrite length_fmap.
  - intros i h Hi. exists (Commands.row p h). rewrite list_lookup_fmap, Hi.
    split_and!; [done..|]. apply Hrow.
  - intros h (sel & l1 & l2 & Hs & _ & Hl & _ & Hh)%get_selected_highlight_iff.
    exists (length l1), (Commands.row p h).
    assert (Hi : ProjectState.highlights p !! length l1 = Some h).
    { rewrite Hl. by apply list_lookup_middle. }
    rewrite list_lookup_fmap, Hi. split_and!; [done..|].
    apply Hrow. congruence.
  - intros Huniq i j r r' Hi Hj Hr Hr'.
    rewrite list_lookup_fmap in Hi, Hj.
    destruct (ProjectState.highlights p !! i) as [h|] eqn:Hhi; [|done].
    destruct (ProjectState.highlights p !! j) as [h'|] eqn:Hhj; [|done].
    injection Hi as <-. injection Hj as <-.
    apply Hrow in Hr, Hr'.
    apply (NoDup_lookup _ i j (Highlight.id h) Huniq).
    + by rewrite list_lookup_fmap, Hhi.
    + rewrite list_lookup_fmap, Hhj. cbn. congruence.
Qed.

Context (HN : Pydantic.Native L).

(** X21. [fightlight add-highlight] leaves the file as it is when no
    project loads or when the range is not valid.  With a valid range the
    file then loads as the project with the new highlight (no tags)
    appended, and [fightlight highlights] shows the former rows followed by
    the row of the new highlight. *)
Theorem add_highlight_command_spec (disk : App.Disk) (highlight_id name : string)
    (start end_ : float) (description : option string) :
  (App.load_project_state L disk = None ->
   Commands.add_highlight L disk highlight_id name start end_ description = disk)
  /\ (forall p, App.load_project_state L disk = Some p ->
      (~ (ge start zero = true /\ gt end_ start = true) ->
       Commands.add_highlight L disk highlight_id name start end_ description = disk)
      /\ (ge start zero = true -> gt end_ start = true ->
          let h := Highlight.mk highlight_id name (TimeRange.mk start end_) description [] in
          let disk' :=
            Commands.add_highlight L disk highlight_id name start end_ description in
          disk' = App.save_project_state (ProjectState.add_highlight h p)
          /\ App.load_project_state L disk' = Some (ProjectState.add_highlight h p)
          /\ Commands.highlights L disk'
             = Commands.Table ((Commands.row p <$> ProjectState.highlights p)
                               ++ [Commands.row p h]))).
Proof.
  split.
  - intros Hnone. unfold Commands.add_highlight. by rewrite Hnone.
  - intros p Hp. split.
    + intros Hbad. unfold Commands.add_highlight.
      by rewrite Hp, TimeRange_new_raise.
    + intros Hs He.
      set (h := Highlight.mk highlight_id name (TimeRange.mk start end_) description []).
      assert (Hd : Commands.add_highlight L disk highlight_id name start end_ description
                   = App.save_project_state (ProjectState.add_highlight h p)).
      { unfold Commands.add_highlight. rewrite Hp.
        by rewrite (proj2 (TimeRange_new_ok_iff start end_ (TimeRange.mk start end_))). }
      cbv zeta. rewrite Hd.
      assert (Hload : App.load_project_state L
                        (App.save_project_state (ProjectState.add_highlight h p))
                      = Some (ProjectState.add_highlight h p)).
      { apply load_save; [done|].
        unfold ProjectState.ranges_ok. cbn. apply Forall_app. split.
        - exact (load_ranges_ok L disk p Hp).
        - repeat constructor; done. }
      split_and!; [done..|].
      rewrite (highlights_loaded _ _ Hload).
      * cbn. by rewrite fmap_app.
      * cbn. by destruct (ProjectState.highlights p).
Qed.

End CommandFacts.

(** ** The further properties on the sample data *)

Section Instances.

Lemma fixture_loads :
  App.load_project_state Pydantic.strict Fixture.disk = Some Fixture.fight.
Proof. apply load_save; [exact strict_native | repeat constructor]. Qed.

Lemma fixture_live : Invariant.selection_live Fixture.fight.
Proof.
  intros sel [= <-]. exists (Sample.hook "h2").
  split; [|reflexivity]. apply list_elem_of_further, list_elem_of_here.
Qed.

Lemma fixture_unique : Invariant.unique_ids Fixture.fight.
Proof.
  unfold Invariant.unique_ids. cbn.
  apply NoDup_cons. split; [|apply NoDup_singleton].
  intros H%list_elem_of_singleton. discriminate.
Qed.

Lemma methods_keep_selection_live_witness :
  Invariant.selection_live Fixture.fight
  /\ Invariant.selection_live (ProjectState.add_highlight Fixture.cross Fixture.fight)
  /\ Invariant.selection_live (ProjectState.remove_highlight "h2" Fixture.fight).2.
Proof.
  destruct (methods_keep_selection_live Fixture.fight fixture_live) as [Ha Hr].
  split_and!; [exact fixture_live | apply Ha | apply Hr].
Defined.

Lemma remove_highlight_unique_ids_witness :
  Invariant.unique_ids Fixture.fight
  /\ Invariant.unique_ids (ProjectState.remove_highlight "h1" Fixture.fight).2
  /\ Forall (fun x => Highlight.id x <> "h1")
       (ProjectState.highlights (ProjectState.remove_highlight "h1" Fixture.fight).2).
Proof.
  split; [exact fixture_unique|].
  exact (remove_highlight_unique_ids Fixture.fight "h1" fixture_unique).
Defined.

Lemma add_then_remove_witness :
  Forall (fun x => Highlight.id x <> Highlight.id Fixture.cross)
    (ProjectState.highlights Fixture.fight)
  /\ ProjectState.remove_highlight "h3"
       (ProjectState.add_highlight Fixture.cross Fixture.fight)
     = (true, Fixture.fight).
Proof.
  assert (H : Forall (fun x => Highlight.id x <> Highlight.id Fixture.cross)
                (ProjectState.highlights Fixture.fight)).
  { repeat constructor; discriminate. }
  split; [exact H|]. exact (add_then_remove Fixture.fight Fixture.cross H).
Defined.

Lemma routes_keep_the_project_witness :
  Pydantic.Native Pydantic.strict
  /\ Invariant.kept Pydantic.strict Fixture.disk
       (App.nudge Pydantic.strict Fixture.disk (Some (of_Z 2))).2
  /\ Invariant.kept Pydantic.strict Fixture.disk
       (Routes.import_highlights Pydantic.strict Fixture.disk
          (Some [Fixture.cross_document])).2.
Proof.
  destruct (routes_keep_the_project Pydantic.strict strict_native Fixture.disk)
    as (_ & Hnudge & _ & _ & Himport).
  split_and!; [exact strict_native | apply Hnudge | apply Himport].
Defined.

Lemma update_range_spec_witness :
  Routes.update_range Pydantic.strict Fixture.disk
      (Some (JFloat (of_Z 12))) (Some (JFloat (of_Z 18)))
    = (App.Reply_ 200 "Time range updated",
       App.save_project_state
         (ProjectState.set_highlights
            [Sample.jab "h1";
             Highlight.mk "h2" "Hook" (TimeRange.mk (of_Z 12) (of_Z 18)) None []]
            Fixture.fight))
  /\ Routes.update_range Pydantic.strict Fixture.disk
       (Some (JFloat (of_Z 18))) (Some (JFloat (of_Z 12)))
     = (App.Reply_ 400 "Invalid time range", Fixture.disk)
  /\ Routes.update_range Pydantic.strict Fixture.disk (Some (JFloat (of_Z 12))) None
     = (App.Reply_ 400 "start and end times are required", Fixture.disk).
Proof.
  destruct (update_range_spec Pydantic.strict Fixture.disk) as [Hmissing Hgiven].
  split_and!.
  - destruct (Hgiven Fixture.fight 1%nat (Sample.hook "h2")
                (JFloat (of_Z 12)) (JFloat (of_Z 18)) fixture_loads eq_refl)
      as (Hok & _ & _); [discriminate..|].
    exact (Hok (of_Z 12) (of_Z 18) eq_refl eq_refl eq_refl eq_refl).
  - destruct (Hgiven Fixture.fight 1%nat (Sample.hook "h2")
                (JFloat (of_Z 18)) (JFloat (of_Z 12)) fixture_loads eq_refl)
      as (_ & Hbad & _); [discriminate..|].
    apply (Hbad (of_Z 18) (of_Z 12) eq_refl eq_refl).
    intros [_ H]. discriminate H.
  - apply Hmissing. by right.
Defined.

Lemma import_highlights_spec_witness :
  Routes.import_highlights Pydantic.strict Fixture.disk (Some [Fixture.cross_document])
    = (App.Reply_ 200 "Imported highlights",
       App.save_project_state
         (ProjectState.set_highlights
            (ProjectState.highlights (Routes.load_or_new Pydantic.strict Fixture.disk)
             ++ [Fixture.cross])
            (Routes.load_or_new Pydantic.strict Fixture.disk)))
  /\ Routes.import_highlights Pydantic.strict Fixture.disk
       (Some [Fixture.cross_document; JNull])
     = (App.Reply_ 400 "Invalid highlight data", Fixture.disk).
Proof.
  destruct (import_highlights_spec Pydantic.strict Fixture.disk) as (Hok & Hbad & _).
  split.
  - apply Hok. repeat constructor.
  - apply Hbad. apply Exists_cons_tl, Exists_cons_hd. reflexivity.
Defined.

Lemma import_video_spec_witness :
  Pydantic.Native Pydantic.strict
  /\ App.load_project_state Pydantic.strict
       (Routes.import_video Pydantic.strict None (Some "media/fight.mp4")).2
     = Some (ProjectState.mk "New Project"
               (Some (VideoFile.mk "media/fight.mp4" None None None None)) [] None ∅).
Proof.
  split; [exact strict_native|].
  destruct (import_video_spec Pydantic.strict strict_native None) as (_ & _ & H).
  assert (Hne : "media/fight.mp4" <> "") by discriminate.
  exact (proj1 (proj2 (H "media/fight.mp4" Hne))).
Defined.

Lemma get_state_reloads_witness :
  Pydantic.Native Pydantic.strict
  /\ Routes.get_state Pydantic.strict Fixture.disk
     = inr (ProjectState.model_dump Fixture.fight)
  /\ App.load_project_state Pydantic.strict (Some (ProjectState.model_dump Fixture.fight))
     = App.load_project_state Pydantic.strict Fixture.disk.
Proof.
  assert (Hget : Routes.get_state Pydantic.strict Fixture.disk
                 = inr (ProjectState.model_dump Fixture.fight)).
  { unfold Routes.get_state. by rewrite fixture_loads. }
  split_and!; [exact strict_native | exact Hget |].
  exact (proj1 (proj1 (get_state_reloads Pydantic.strict strict_native Fixture.disk) _ Hget)).
Defined.

Lemma select_then_export_witness :
  Pydantic.Native Pydantic.strict
  /\ Routes.export_clip Pydantic.strict
       (App.select_highlight Pydantic.strict Fixture.disk (Some "h1")).2
     = Routes.Initiated ["exports/Jab_h1.mp4"].
Proof.
  split; [exact strict_native|].
  assert (Hne : "h1" <> "") by discriminate.
  exact (proj2 (select_then_export Pydantic.strict strict_native Fixture.disk Fixture.fight
                  "h1" [] [Sample.hook "h2"] (Sample.jab "h1")
                  fixture_loads Hne eq_refl (Forall_nil_2 _) eq_refl)).
Defined.

Lemma export_clip_in_export_all_witness :
  Routes.export_clip Pydantic.strict Fixture.disk = Routes.Initiated ["exports/Hook_h2.mp4"]
  /\ exists (p : ProjectState.t) (paths : list string),
       App.load_project_state Pydantic.strict Fixture.disk = Some p
       /\ Routes.export_all Pydantic.strict Fixture.disk = Routes.Initiated paths
       /\ "exports/Hook_h2.mp4" ∈ paths
       /\ length paths = length (ProjectState.highlights p).
Proof.
  assert (H : Routes.export_clip Pydantic.strict Fixture.disk
              = Routes.Initiated ["exports/Hook_h2.mp4"]).
  { unfold Routes.export_clip. by rewrite fixture_loads. }
  split; [exact H|].
  exact (export_clip_in_export_all Pydantic.strict Fixture.disk _ H).
Defined.

Lemma output_path_distinct_witness :
  Highlight.name (Sample.jab "h1") = Highlight.name (Sample.jab "h2")
  /\ Routes.output_path (Sample.jab "h1") <> Routes.output_path (Sample.jab "h2").
Proof.
  split; [reflexivity|].
  apply output_path_distinct; [reflexivity | discriminate].
Defined.

Lemma model_validate_ignores_other_keys_witness :
  ProjectState.model_validate Pydantic.strict
    (JDict (<["version" := JInt 2]> {[ "project_name" := JStr "Fight Night" ]}))
  = ProjectState.model_validate Pydantic.strict
      (JDict {[ "project_name" := JStr "Fight Night" ]}).
Proof.
  apply model_validate_ignores_other_keys.
  intros H. repeat (apply elem_of_cons in H as [H | H]; [discriminate H|]).
  by apply elem_of_nil in H.
Defined.

Lemma Highlight_model_validate_defaults_witness :
  Highlight.model_validate Pydantic.strict Fixture.cross_document = Ok Fixture.cross.
Proof.
  refine (proj1 (Highlight_model_validate_defaults Pydantic.strict _ "h3" "Cross"
                   (JDict (<["start" := JFloat (of_Z 30)]> (<["end" := JFloat (of_Z 40)]> ∅)))
                   (TimeRange.mk (of_Z 30) (of_Z 40)) _ _ _ _) _ _);
    try reflexivity.
  by left.
Defined.

Lemma TimeRange_new_bounds_witness :
  TimeRange.new (of_Z 10) (of_Z 20) = Ok (TimeRange.mk (of_Z 10) (of_Z 20))
  /\ (exists m x, of_Z 10 = S754_finite false m x)
  /\ (exists m x, of_Z 20 = S754_finite false m x).
Proof.
  assert (H : TimeRange.new (of_Z 10) (of_Z 20) = Ok (TimeRange.mk (of_Z 10) (of_Z 20)))
    by reflexivity.
  split; [exact H|].
  destruct (TimeRange_new_bounds _ _ _ H) as [[[b Hs] | Hs] [He | He]];
    try discriminate. by split.
Defined.

Lemma highlights_marks_witness :
  exists rows,
    Commands.highlights Pydantic.strict Fixture.disk = Commands.Table rows
    /\ length rows = 2%nat.
Proof.
  assert (Hne : ProjectState.highlights Fixture.fight <> []) by discriminate.
  destruct (highlights_marks Pydantic.strict Fixture.disk Fixture.fight fixture_loads Hne)
    as (rows & Htable & Hlen & _).
  exists rows. by split.
Defined.

Lemma add_highlight_command_spec_witness :
  Pydantic.Native Pydantic.strict
  /\ Commands.add_highlight Pydantic.strict Fixture.disk "h3" "Cross" (of_Z 30) (of_Z 40) None
     = App.save_project_state (ProjectState.add_highlight Fixture.cross Fixture.fight)
  /\ Commands.add_highlight Pydantic.strict Fixture.disk "h3" "Cross" (of_Z 40) (of_Z 30) None
     = Fixture.disk.
Proof.
  split; [exact strict_native|]. split.
  - destruct (add_highlight_command_spec Pydantic.strict strict_native Fixture.disk
                "h3" "Cross" (of_Z 30) (of_Z 40) None) as [_ H].
    exact (proj1 (proj2 (H Fixture.fight fixture_loads) eq_refl eq_refl)).
  - destruct (add_highlight_command_spec Pydantic.strict strict_native Fixture.disk
                "h3" "Cross" (of_Z 40) (of_Z 30) None) as [_ H].
    apply (proj1 (H Fixture.fight fixture_loads)). intros [_ Hgt]. discriminate Hgt.
Defined.

End Instances.
